(** * GPIOlcd: the HD44780 16x2 driver of [GPIOlcd.py], embedded and verified

    The class [lcd16x2] drives the display through [RPi.GPIO] in 8-bit
    parallel mode.  Everything the driver does to the outside world is a
    call of [GPIO.*] or [time.sleep]; the embedding records those calls, in
    order, as a list of [event]s.  A method is a function from the object
    it is called on to an outcome (a value or a raised exception), the
    object as the method left it, and the events it produced.  An exception
    does not undo what was done before it was raised: the object and the
    events survive it, exactly as in Python.

    Python's [str] is modelled by [string] (characters with code points
    0..255), [int] by [Z], [bool] by [bool], a [list] of pin numbers by
    [list Z].  The [type(x) == ...] guards of the source are discharged by
    the types of the embedding. *)

From Stdlib Require Import ZArith List String Ascii Bool Lia QArith_base.
Import ListNotations.

Local Open Scope string_scope.
Local Open Scope list_scope.
Local Open Scope Z_scope.

(** ** Exceptions, events and the object *)

Inductive exn : Type :=
| ValueError (msg : string)
| IndexError (msg : string).

(** The second argument of [GPIO.output]: the source passes a [bool] for the
    control lines and an [int] for the data lines. *)
Inductive level : Type :=
| LBool (b : bool)
| LInt (z : Z).

Inductive event : Type :=
| GPIO_setmode_BCM
| GPIO_setwarnings (flag : bool)
| GPIO_setup_OUT (pin : Z)
| GPIO_output (pin : Z) (value : level)
| time_sleep (seconds : Q)
| GPIO_cleanup.

Record lcd16x2 : Type := Lcd {
  _RS : Z;
  _E : Z;
  _pins : list Z;
  _display : bool;
  _cursor : bool;
  _blink : bool;
  _CURSORPOS : Z
}.

Definition set_CURSORPOS (self : lcd16x2) (p : Z) : lcd16x2 :=
  Lcd (_RS self) (_E self) (_pins self)
      (_display self) (_cursor self) (_blink self) p.

Definition set_display (self : lcd16x2) (v : bool) : lcd16x2 :=
  Lcd (_RS self) (_E self) (_pins self)
      v (_cursor self) (_blink self) (_CURSORPOS self).

Definition set_cursor (self : lcd16x2) (v : bool) : lcd16x2 :=
  Lcd (_RS self) (_E self) (_pins self)
      (_display self) v (_blink self) (_CURSORPOS self).

Definition set_blink (self : lcd16x2) (v : bool) : lcd16x2 :=
  Lcd (_RS self) (_E self) (_pins self)
      (_display self) (_cursor self) v (_CURSORPOS self).

(** ** The method monad *)

Inductive result (A : Type) : Type :=
| Ok (a : A)
| Raise (e : exn).

Arguments Ok {A} a.
Arguments Raise {A} e.

Definition M (A : Type) : Type :=
  lcd16x2 -> result A * lcd16x2 * list event.

Definition ret {A} (a : A) : M A := fun self => (Ok a, self, []).

Definition raise {A} (e : exn) : M A := fun self => (Raise e, self, []).

Definition bind {A B} (m : M A) (k : A -> M B) : M B :=
  fun self =>
    match m self with
    | (Ok a, self1, t1) =>
        match k a self1 with
        | (r, self2, t2) => (r, self2, t1 ++ t2)
        end
    | (Raise e, self1, t1) => (Raise e, self1, t1)
    end.

Definition get : M lcd16x2 := fun self => (Ok self, self, []).

Definition put (self' : lcd16x2) : M unit := fun _ => (Ok tt, self', []).

Definition emit (e : event) : M unit := fun self => (Ok tt, self, [e]).

Definition lift {A} (r : result A) : M A := fun self => (r, self, []).

Declare Scope method_scope.
Delimit Scope method_scope with method.
Notation "x <- m ;; k" := (bind m (fun x => k))
  (at level 61, m at next level, right associativity) : method_scope.
Notation "m ;; k" := (bind m (fun _ => k))
  (at level 61, right associativity) : method_scope.
Local Open Scope method_scope.

(** [for x in xs: body] *)
Fixpoint for_each {X} (xs : list X) (body : X -> M unit) : M unit :=
  match xs with
  | [] => ret tt
  | x :: xs' => body x ;; for_each xs' body
  end.

(** [range(n)] *)
Definition range (n : nat) : list nat := seq 0 n.

(** Projections of an outcome. *)
Definition outcome {A} (r : result A * lcd16x2 * list event) : result A :=
  fst (fst r).
Definition after {A} (r : result A * lcd16x2 * list event) : lcd16x2 :=
  snd (fst r).
Definition sent {A} (r : result A * lcd16x2 * list event) : list event :=
  snd r.

(** ** Python built-ins the driver uses *)

(** [l[i]] on a list: a negative index counts from the end. *)
Definition list_getitem {A} (l : list A) (i : Z) : result A :=
  let len := Z.of_nat (List.length l) in
  let j := if i <? 0 then len + i else i in
  if (0 <=? j) && (j <? len) then
    match nth_error l (Z.to_nat j) with
    | Some a => Ok a
    | None => Raise (IndexError "list index out of range")
    end
  else Raise (IndexError "list index out of range").

(** [s[n]] on a string, for the non-negative [n] the source uses. *)
Definition str_getitem (s : string) (n : nat) : result ascii :=
  match String.get n s with
  | Some c => Ok c
  | None => Raise (IndexError "string index out of range")
  end.

(** [int(c)] for a one-character string [c]: among the code points 0..255
    exactly the ten ASCII digits are accepted. *)
Definition int (c : ascii) : result Z :=
  let n := Z.of_N (N_of_ascii c) in
  if (48 <=? n) && (n <=? 57) then Ok (n - 48)
  else Raise (ValueError "invalid literal for int() with base 10").

(** [ord(c)] *)
Definition ord (c : ascii) : Z := Z.of_N (N_of_ascii c).

(** [bin(n)] for [n >= 0]: the prefix [0b] and the binary digits, most
    significant first. *)
Fixpoint bin_digits (p : positive) (acc : string) : string :=
  match p with
  | xH => String "1" acc
  | xO p' => bin_digits p' (String "0" acc)
  | xI p' => bin_digits p' (String "1" acc)
  end.

Definition bin (n : Z) : string :=
  match n with
  | Zpos p => String.append "0b" (bin_digits p EmptyString)
  | Z0 => "0b0"
  | Zneg p => String.append "-0b" (bin_digits p EmptyString)
  end.

(** [s[n:]] and [s[:n]] for a non-negative [n]. *)
Fixpoint slice_from (n : nat) (s : string) : string :=
  match n, s with
  | O, _ => s
  | S n', String _ s' => slice_from n' s'
  | S _, EmptyString => EmptyString
  end.

Fixpoint slice_to (n : nat) (s : string) : string :=
  match n, s with
  | S n', String c s' => String c (slice_to n' s')
  | _, _ => EmptyString
  end.

(** ["0" * p]: an empty string when [p <= 0]. *)
Fixpoint zeros (n : nat) : string :=
  match n with
  | O => EmptyString
  | S n' => String "0" (zeros n')
  end.

Definition str_repeat_zero (p : Z) : string := zeros (Z.to_nat p).

(** [len(s)] *)
Definition len (s : string) : Z := Z.of_nat (String.length s).

(** [str(int(v))] for a [bool] [v]. *)
Definition str_int (v : bool) : string := if v then "1" else "0".

(** ** The class [lcd16x2] *)

(** Pre-defined commands, the enable-pin timing (the literal [0.0001], in
    seconds). *)
Definition _CLEAR : string := "00000001".
Definition _HOME : string := "00000010".
Definition _SETENTRY : string := "00000110".
Definition _SETFUNC : string := "00111000".
Definition _DELAY : Q := Qmake 1 10000.

Definition msg_not_ascii : string :=
  "Text to convert must only contain ASCII characters".
Definition msg_first_len8 : string :=
  "First parameter must have a string length equal to 8".
Definition msg_pins_len8 : string :=
  "Third parameter (`list` of `int`) must contain exactly 8 elements".
Definition msg_len32 : string :=
  "Paramter 1 must not have length greater than 32".
Definition msg_too_long : string :=
  "String is too long - total string must not excede 32 characters".

(** The body of the loop of [_textToBinary]: one character to its byte. *)
Definition char_to_byte (c : ascii) : string :=
  let byte := bin (ord c) in
  let byte := slice_from 2 byte in
  if negb (len byte =? 8) then
    let p := 8 - len byte in
    String.append (str_repeat_zero p) byte
  else byte.

Definition _textToBinary (text : string) : result (list string) :=
  if forallb (fun c => ord c <? 128) (list_ascii_of_string text) then
    Ok (map char_to_byte (list_ascii_of_string text))
  else Raise (ValueError msg_not_ascii).

Definition _sendBinary (b : string) (isData : bool) : M unit :=
  if len b =? 8 then
    self <- get ;;
    emit (GPIO_output (_RS self) (LBool isData)) ;;
    emit (GPIO_output (_E self) (LBool true)) ;;
    emit (time_sleep _DELAY) ;;
    for_each (range (List.length (_pins self))) (fun n =>
      pin <- lift (list_getitem (_pins self) (7 - Z.of_nat n)) ;;
      c <- lift (str_getitem b n) ;;
      v <- lift (int c) ;;
      emit (GPIO_output pin (LInt v)) ;;
      emit (time_sleep _DELAY)) ;;
    emit (GPIO_output (_E self) (LBool false)) ;;
    emit (time_sleep _DELAY)
  else raise (ValueError msg_first_len8).

Definition _updateDisplay : M unit :=
  self <- get ;;
  _sendBinary
    (String.append "00001"
       (String.append (str_int (_display self))
          (String.append (str_int (_cursor self)) (str_int (_blink self)))))
    false.

Definition clear : M unit :=
  self <- get ;;
  put (set_CURSORPOS self 0) ;;
  _sendBinary _CLEAR false ;;
  _sendBinary _SETFUNC false ;;
  _updateDisplay ;;
  _sendBinary _SETENTRY false ;;
  _sendBinary _HOME false.

(** [self._CURSORPOS += 1] *)
Definition incr_CURSORPOS : M unit :=
  self <- get ;;
  put (set_CURSORPOS self (_CURSORPOS self + 1)).

(** The body shared by the text loops: send one byte as character data and
    advance the cursor. *)
Definition send_char (byte : string) : M unit :=
  _sendBinary byte true ;;
  incr_CURSORPOS.

(** [for _ in range(24): send NULL; advance] *)
Definition send_nulls : M unit :=
  for_each (range 24) (fun _ => send_char "00000000").

(** [__init__(RS, E, pins)], called on the fresh object, whose
    [_CURSORPOS] reads the class attribute [0] until [clear] assigns it. *)
Definition __init__ (RS E : Z) (pins : list Z) :
  result unit * lcd16x2 * list event :=
  let fresh := Lcd RS E pins true false false 0 in
  (if (List.length pins =? 8)%nat then
     emit GPIO_setmode_BCM ;;
     emit (GPIO_setwarnings false) ;;
     for_each [RS; E] (fun pin =>
       emit (GPIO_setup_OUT pin) ;;
       emit (GPIO_output pin (LBool false))) ;;
     for_each pins (fun pin =>
       emit (GPIO_setup_OUT pin) ;;
       emit (GPIO_output pin (LBool false))) ;;
     clear
   else raise (ValueError msg_pins_len8)) fresh.

Definition __del__ : M unit := emit GPIO_cleanup.

Definition setText (text : string) : M unit :=
  if len text <=? 32 then
    if len text <=? 16 then
      clear ;;
      bytes <- lift (_textToBinary text) ;;
      for_each bytes send_char ;;
      self <- get ;;
      if _CURSORPOS self =? 15 then send_nulls else ret tt
    else
      clear ;;
      bytes <- lift (_textToBinary (slice_to 16 text)) ;;
      for_each bytes send_char ;;
      send_nulls ;;
      bytes <- lift (_textToBinary (slice_from 16 text)) ;;
      for_each bytes send_char
  else raise (ValueError msg_len32).

(** One pass of the loop of [append]. *)
Definition append_step (byte : string) : M unit :=
  self <- get ;;
  (if _CURSORPOS self =? 16 then send_nulls else ret tt) ;;
  self <- get ;;
  if negb (_CURSORPOS self =? 16) then send_char byte else ret tt.

(** The capacity test of [append]. *)
Definition append_fits (self : lcd16x2) (text : string) : bool :=
  negb (String.eqb text EmptyString) &&
  (((_CURSORPOS self <=? 16) && (_CURSORPOS self + 24 + len text <=? 56)) ||
   ((_CURSORPOS self >=? 39) && (_CURSORPOS self + len text <=? 56))).

Definition append (text : string) : M unit :=
  if negb (String.eqb text EmptyString) then
    self <- get ;;
    if append_fits self text then
      bytes <- lift (_textToBinary text) ;;
      for_each bytes append_step
    else raise (ValueError msg_too_long)
  else ret tt.

Definition setDisplay (value : bool) : M unit :=
  self <- get ;;
  put (set_display self value) ;;
  _updateDisplay.

Definition setCursor (value : bool) : M unit :=
  self <- get ;;
  put (set_cursor self value) ;;
  _updateDisplay.

Definition setBlink (value : bool) : M unit :=
  self <- get ;;
  put (set_blink self value) ;;
  _updateDisplay.

Definition displayOn : M unit := setDisplay true.
Definition displayOff : M unit := setDisplay false.
Definition cursorOn : M unit := setCursor true.
Definition cursorOff : M unit := setCursor false.
Definition blinkOn : M unit := setBlink true.
Definition blinkOff : M unit := setBlink false.

(** ** Vocabulary of the statements *)

(** An object as [__init__] accepts it: eight data pins. *)
Definition wired (self : lcd16x2) : Prop := List.length (_pins self) = 8%nat.

(** The characters ["0"] and ["1"], and the strings of exactly eight of
    them. *)
Definition is_bit (c : ascii) : bool := Ascii.eqb c "0" || Ascii.eqb c "1".

Definition is_pattern (b : string) : bool :=
  (String.length b =? 8)%nat && forallb is_bit (list_ascii_of_string b).

(** The value of the [n]-th character of a pattern, counted from the most
    significant end. *)
Definition bit (b : string) (n : nat) : Z :=
  match String.get n b with
  | Some c => if Ascii.eqb c "1" then 1 else 0
  | None => 0
  end.

(** The pulse sequence of one byte, following section 4.2 of the
    specification: register select, enable high, settle, the eight data
    lines from the most significant bit on the highest line down, each
    followed by a settle delay, enable low, settle. *)
Definition pulse (self : lcd16x2) (b : string) (isData : bool) : list event :=
  [GPIO_output (_RS self) (LBool isData);
   GPIO_output (_E self) (LBool true);
   time_sleep _DELAY]
  ++ flat_map (fun n =>
       [GPIO_output (nth (7 - n) (_pins self) 0) (LInt (bit b n));
        time_sleep _DELAY]) (seq 0 8)
  ++ [GPIO_output (_E self) (LBool false);
      time_sleep _DELAY].

(** A transmission is a byte and its register-select value; a list of
    transmissions stands for the pulses of each, one after the other. *)
Definition transmission : Type := (string * bool)%type.

Definition instruction (b : string) : transmission := (b, false).
Definition character (b : string) : transmission := (b, true).

Definition transmit (self : lcd16x2) (ts : list transmission) : list event :=
  flat_map (fun t => pulse self (fst t) (snd t)) ts.

Definition characters (bytes : list string) : list transmission :=
  map character bytes.

Definition nulls : list transmission := repeat (character "00000000") 24.

(** The display-control instruction [00001DCB]. *)
Definition bit_char (v : bool) : ascii := if v then "1"%char else "0"%char.

Definition display_control (self : lcd16x2) : string :=
  String "0" (String "0" (String "0" (String "0" (String "1"
    (String (bit_char (_display self))
      (String (bit_char (_cursor self))
        (String (bit_char (_blink self)) EmptyString))))))).

(** The five instructions of [clear], in order. *)
Definition clear_instructions (self : lcd16x2) : list transmission :=
  [instruction "00000001"; instruction "00111000";
   instruction (display_control self);
   instruction "00000110"; instruction "00000010"].

(** Seven-bit text and its encoding. *)
Definition is_ascii (text : string) : bool :=
  forallb (fun c => ord c <? 128) (list_ascii_of_string text).

Definition encode (text : string) : list string :=
  map char_to_byte (list_ascii_of_string text).

(** The eight binary digits of [n], most significant first. *)
Definition bits8 (n : Z) : string :=
  string_of_list_ascii
    (map (fun i => bit_char (Z.testbit n (Z.of_nat (7 - i)))) (seq 0 8)).

(** The region the cursor may rest in. *)
Definition cursor_ok (p : Z) : Prop := 0 <= p <= 16 \/ 39 <= p <= 56.

(** A device for the concrete runs. *)
Definition bench : lcd16x2 :=
  Lcd 20 21 [5; 6; 13; 19; 26; 16; 12; 25] true false false 0.

(** What the loop of [append] sends for the bytes [bytes] when it starts at
    cursor position [p], and where it leaves the cursor. *)
Fixpoint append_plan (p : Z) (bytes : list string) : list transmission :=
  match bytes with
  | [] => []
  | b :: bs =>
      (if p =? 16 then nulls else []) ++
      character b :: append_plan ((if p =? 16 then 40 else p) + 1) bs
  end.

Fixpoint append_end (p : Z) (bytes : list string) : Z :=
  match bytes with
  | [] => p
  | _ :: bs => append_end ((if p =? 16 then 40 else p) + 1) bs
  end.

(** ** The public surface and the states it reaches *)

Inductive call : Type :=
| Clear
| SetText (text : string)
| Append (text : string)
| SetDisplay (value : bool)
| SetCursor (value : bool)
| SetBlink (value : bool)
| DisplayOn
| DisplayOff
| CursorOn
| CursorOff
| BlinkOn
| BlinkOff.

Definition perform (c : call) : M unit :=
  match c with
  | Clear => clear
  | SetText text => setText text
  | Append text => append text
  | SetDisplay value => setDisplay value
  | SetCursor value => setCursor value
  | SetBlink value => setBlink value
  | DisplayOn => displayOn
  | DisplayOff => displayOff
  | CursorOn => cursorOn
  | CursorOff => cursorOff
  | BlinkOn => blinkOn
  | BlinkOff => blinkOff
  end.

(** The objects a program can hold: those a successful construction
    returns, and those any call leaves behind, whether the call returned or
    raised (the caller may catch the exception and go on). *)
Inductive reachable : lcd16x2 -> Prop :=
| reach_init RS E pins :
    outcome (__init__ RS E pins) = Ok tt ->
    reachable (after (__init__ RS E pins))
| reach_call self c :
    reachable self -> reachable (after (perform c self)).

Definition sound (self : lcd16x2) : Prop :=
  wired self /\ cursor_ok (_CURSORPOS self).

(** The number a pattern denotes, read most significant bit first. *)
Definition pattern_value (b : string) : Z :=
  fold_left (fun acc n => 2 * acc + bit b n) (seq 0 8) 0.

(** The delays and the line writes of a trace. *)
Definition is_sleep (e : event) : bool :=
  match e with
  | time_sleep _ => true
  | _ => false
  end.

Definition is_output (e : event) : bool :=
  match e with
  | GPIO_output _ _ => true
  | _ => false
  end.

Definition sleeps (t : list event) : nat := List.length (filter is_sleep t).

Definition line_writes (t : list event) : nat :=
  List.length (filter is_output t).

(** Two objects with the same wiring and the same mode flags. *)
Definition same_modes (self self' : lcd16x2) : Prop :=
  _RS self' = _RS self /\ _E self' = _E self /\ _pins self' = _pins self /\
  _display self' = _display self /\ _cursor self' = _cursor self /\
  _blink self' = _blink self.

(** * Properties *)

(** ** The byte transmitter *)

Lemma is_bit_cases c : is_bit c = true -> c = "0"%char \/ c = "1"%char.
Proof.
  unfold is_bit. intros H. apply orb_true_iff in H.
  destruct H as [H | H]; apply Ascii.eqb_eq in H; auto.
Qed.

Lemma int_bit c :
  is_bit c = true -> int c = Ok (if Ascii.eqb c "1" then 1 else 0).
Proof.
  intros H. destruct (is_bit_cases c H); subst; reflexivity.
Qed.

Lemma pattern_shape b :
  is_pattern b = true ->
  exists c0 c1 c2 c3 c4 c5 c6 c7,
    b = String c0 (String c1 (String c2 (String c3 (String c4
          (String c5 (String c6 (String c7 EmptyString))))))) /\
    Forall (fun c => is_bit c = true) [c0; c1; c2; c3; c4; c5; c6; c7].
Proof.
  unfold is_pattern. intros H. apply andb_true_iff in H. destruct H as [L F].
  apply Nat.eqb_eq in L.
  do 8 (destruct b as [| ? b]; [discriminate L |]).
  destruct b; [| discriminate L].
  do 8 eexists. split; [reflexivity |].
  cbn in F. repeat (apply andb_true_iff in F; destruct F as [? F]).
  repeat constructor; assumption.
Qed.

Lemma wired_shape self :
  wired self ->
  exists p0 p1 p2 p3 p4 p5 p6 p7, _pins self = [p0; p1; p2; p3; p4; p5; p6; p7].
Proof.
  unfold wired. intros H.
  destruct (_pins self) as [| p0 l]; [discriminate H |].
  do 7 (destruct l as [| ? l]; [discriminate H |]).
  destruct l; [| discriminate H].
  do 8 eexists. reflexivity.
Qed.

Lemma _sendBinary_pattern self b isData :
  wired self -> is_pattern b = true ->
  _sendBinary b isData self = (Ok tt, self, pulse self b isData).
Proof.
  intros W P.
  destruct (wired_shape self W) as (p0 & p1 & p2 & p3 & p4 & p5 & p6 & p7 & Hp).
  destruct (pattern_shape b P) as (c0 & c1 & c2 & c3 & c4 & c5 & c6 & c7 & -> & F).
  repeat match goal with
         | H : Forall _ (_ :: _) |- _ => inversion H; subst; clear H
         end.
  destruct self as [rs e pins d c bl pos]. cbn in Hp. subst pins.
  unfold _sendBinary, pulse, bit, bind, lift, emit, get.
  cbn -[int _DELAY].
  rewrite !int_bit by assumption. reflexivity.
Qed.

Lemma _sendBinary_length self b isData :
  String.length b <> 8%nat ->
  _sendBinary b isData self = (Raise (ValueError msg_first_len8), self, []).
Proof.
  intros H. unfold _sendBinary, len.
  destruct (Z.eqb_spec (Z.of_nat (String.length b)) 8) as [E | E]; [lia |].
  reflexivity.
Qed.

(** The pulses do not depend on the cursor position or on the mode flags. *)
Lemma transmit_wiring self self' ts :
  _RS self' = _RS self -> _E self' = _E self -> _pins self' = _pins self ->
  transmit self' ts = transmit self ts.
Proof.
  intros H1 H2 H3. unfold transmit, pulse. rewrite H1, H2, H3. reflexivity.
Qed.

Lemma transmit_app self ts us :
  transmit self (ts ++ us) = transmit self ts ++ transmit self us.
Proof. unfold transmit. apply flat_map_app. Qed.

(** ** Sequencing *)

Lemma bind_Ok {A B} (m : M A) (k : A -> M B) self a self1 t1 :
  m self = (Ok a, self1, t1) ->
  bind m k self =
  (outcome (k a self1), after (k a self1), t1 ++ sent (k a self1)).
Proof.
  intros H. unfold bind, outcome, after, sent. rewrite H.
  destruct (k a self1) as [[r s] t]. reflexivity.
Qed.

Lemma bind_Raise {A B} (m : M A) (k : A -> M B) self e self1 t1 :
  m self = (Raise e, self1, t1) ->
  bind m k self = (Raise e, self1, t1).
Proof. intros H. unfold bind. rewrite H. reflexivity. Qed.

Lemma for_each_map {X Y} (f : X -> Y) (body : Y -> M unit) xs self :
  for_each (map f xs) body self = for_each xs (fun x => body (f x)) self.
Proof.
  revert self. induction xs as [| x xs IH]; intros self; [reflexivity |].
  cbn [map for_each]. unfold bind. destruct (body (f x) self) as [[[] s] t].
  - rewrite IH. reflexivity.
  - reflexivity.
Qed.

(** ** The mode instruction and [clear] *)

Lemma display_control_pattern self : is_pattern (display_control self) = true.
Proof.
  unfold display_control.
  destruct (_display self), (_cursor self), (_blink self); reflexivity.
Qed.

Lemma _updateDisplay_run self :
  wired self ->
  _updateDisplay self =
  (Ok tt, self, transmit self [instruction (display_control self)]).
Proof.
  intros W. unfold _updateDisplay. rewrite (bind_Ok _ _ self self self []) by reflexivity.
  replace (String.append _ _) with (display_control self)
    by (unfold display_control;
        destruct (_display self), (_cursor self), (_blink self); reflexivity).
  rewrite _sendBinary_pattern by (assumption || apply display_control_pattern).
  cbn [outcome after sent fst snd transmit flat_map instruction].
  rewrite app_nil_r. reflexivity.
Qed.

Lemma clear_run self :
  wired self ->
  clear self =
  (Ok tt, set_CURSORPOS self 0, transmit self (clear_instructions self)).
Proof.
  intros W. unfold clear, bind, get, put.
  assert (W0 : wired (set_CURSORPOS self 0)) by exact W.
  repeat (first [ rewrite _sendBinary_pattern by (assumption || reflexivity)
                | rewrite _updateDisplay_run by assumption ];
          cbv beta iota).
  reflexivity.
Qed.

(** ** The text encoder *)

Lemma char_to_byte_bits8 c :
  (ord c <? 128) = true -> char_to_byte c = bits8 (ord c).
Proof.
  destruct c as [b0 b1 b2 b3 b4 b5 b6 b7].
  destruct b7; [destruct b0, b1, b2, b3, b4, b5, b6; discriminate |].
  intros _. destruct b0, b1, b2, b3, b4, b5, b6; reflexivity.
Qed.

Lemma char_to_byte_pattern c :
  (ord c <? 128) = true -> is_pattern (char_to_byte c) = true.
Proof.
  destruct c as [b0 b1 b2 b3 b4 b5 b6 b7].
  destruct b7; [destruct b0, b1, b2, b3, b4, b5, b6; discriminate |].
  intros _. destruct b0, b1, b2, b3, b4, b5, b6; reflexivity.
Qed.

Lemma _textToBinary_ascii text :
  is_ascii text = true -> _textToBinary text = Ok (encode text).
Proof. unfold _textToBinary, is_ascii, encode. intros ->. reflexivity. Qed.

Lemma _textToBinary_not_ascii text :
  is_ascii text = false ->
  _textToBinary text = Raise (ValueError msg_not_ascii).
Proof. unfold _textToBinary, is_ascii. intros ->. reflexivity. Qed.

Lemma encode_patterns text :
  is_ascii text = true -> Forall (fun b => is_pattern b = true) (encode text).
Proof.
  unfold is_ascii, encode. intros H. rewrite forallb_forall in H.
  apply Forall_forall. intros b Hb. apply in_map_iff in Hb.
  destruct Hb as (c & <- & Hc). apply char_to_byte_pattern. auto.
Qed.

Lemma length_list_ascii s :
  List.length (list_ascii_of_string s) = String.length s.
Proof. induction s as [| c s IH]; cbn; congruence. Qed.

Lemma encode_length text : List.length (encode text) = String.length text.
Proof. unfold encode. rewrite length_map. apply length_list_ascii. Qed.

Lemma slice_to_length n s :
  String.length (slice_to n s) = Nat.min n (String.length s).
Proof.
  revert s. induction n as [| n IH]; intros [| c s]; cbn; auto.
Qed.

Lemma slice_from_length n s :
  String.length (slice_from n s) = (String.length s - n)%nat.
Proof.
  revert s. induction n as [| n IH]; intros [| c s]; cbn; auto.
Qed.

Lemma is_ascii_slice_to n s :
  is_ascii s = true -> is_ascii (slice_to n s) = true.
Proof.
  unfold is_ascii. revert s.
  induction n as [| n IH]; intros [| c s]; cbn; auto.
  intros H. apply andb_true_iff in H. destruct H as [-> H]. cbn. auto.
Qed.

Lemma is_ascii_slice_from n s :
  is_ascii s = true -> is_ascii (slice_from n s) = true.
Proof.
  unfold is_ascii. revert s.
  induction n as [| n IH]; intros [| c s]; cbn; auto.
  intros H. apply andb_true_iff in H. destruct H as [_ H]. auto.
Qed.

Lemma is_ascii_slices n s :
  is_ascii s = is_ascii (slice_to n s) && is_ascii (slice_from n s).
Proof.
  unfold is_ascii. revert s.
  induction n as [| n IH]; intros [| c s]; cbn; auto.
  rewrite IH. apply andb_assoc.
Qed.

(** ** The text loops *)

Lemma set_CURSORPOS_same self : set_CURSORPOS self (_CURSORPOS self) = self.
Proof. destruct self. reflexivity. Qed.

Lemma send_char_run self byte :
  wired self -> is_pattern byte = true ->
  send_char byte self =
  (Ok tt, set_CURSORPOS self (_CURSORPOS self + 1),
   transmit self [character byte]).
Proof.
  intros W P. unfold send_char, incr_CURSORPOS, bind, get, put.
  rewrite _sendBinary_pattern by assumption.
  cbn [transmit flat_map character fst snd]. rewrite !app_nil_r. reflexivity.
Qed.

Lemma send_chars_run bytes : forall self,
  wired self -> Forall (fun b => is_pattern b = true) bytes ->
  for_each bytes send_char self =
  (Ok tt, set_CURSORPOS self (_CURSORPOS self + Z.of_nat (List.length bytes)),
   transmit self (characters bytes)).
Proof.
  induction bytes as [| b bytes IH]; intros self W F.
  - cbn. rewrite Z.add_0_r, set_CURSORPOS_same. reflexivity.
  - inversion F as [| ? ? Pb F']; subst.
    cbn [for_each]. rewrite (bind_Ok _ _ _ _ _ _ (send_char_run self b W Pb)).
    rewrite IH by assumption.
    cbn [outcome after sent fst snd].
    replace (_CURSORPOS self + Z.of_nat (List.length (b :: bytes)))
      with (_CURSORPOS self + 1 + Z.of_nat (List.length bytes))
      by (cbn [List.length]; lia).
    reflexivity.
Qed.

Lemma send_nulls_run self :
  wired self ->
  send_nulls self =
  (Ok tt, set_CURSORPOS self (_CURSORPOS self + 24), transmit self nulls).
Proof.
  intros W. unfold send_nulls.
  rewrite <- (for_each_map (fun _ : nat => "00000000") send_char).
  rewrite send_chars_run; [reflexivity | assumption |].
  apply Forall_forall. intros b Hb. apply in_map_iff in Hb.
  destruct Hb as (? & <- & _). reflexivity.
Qed.

(** Rewriting of a sequence whose first command is known to return. *)
Ltac run_first L :=
  erewrite bind_Ok; [| solve [apply L; auto | reflexivity]].

Ltac run_get := erewrite bind_Ok; [| reflexivity].

(** ** [setText] *)

Lemma setText_too_long self text :
  32 < len text ->
  setText text self = (Raise (ValueError msg_len32), self, []).
Proof.
  intros H. unfold setText.
  destruct (Z.leb_spec (len text) 32); [lia | reflexivity].
Qed.

Lemma setText_one_line self text :
  wired self -> len text <= 16 -> is_ascii text = true ->
  setText text self =
  (Ok tt,
   set_CURSORPOS self (if len text =? 15 then 39 else len text),
   transmit self
     (clear_instructions self ++ characters (encode text) ++
      (if len text =? 15 then nulls else []))).
Proof.
  intros W L A. unfold setText.
  destruct (Z.leb_spec (len text) 32); [| lia].
  destruct (Z.leb_spec (len text) 16); [| lia].
  run_first clear_run.
  rewrite (_textToBinary_ascii text A).
  run_get.
  erewrite bind_Ok;
    [| apply send_chars_run; [exact W | apply encode_patterns; exact A]].
  run_get.
  cbn [_CURSORPOS set_CURSORPOS].
  rewrite encode_length. fold (len text). rewrite Z.add_0_l.
  destruct (Z.eqb_spec (len text) 15) as [E | E].
  - rewrite send_nulls_run by exact W.
    cbn [_CURSORPOS set_CURSORPOS]. rewrite E.
    cbn [outcome after sent fst snd].
    rewrite ?app_nil_r, !transmit_app. reflexivity.
  - cbn [outcome after sent fst snd ret].
    rewrite ?app_nil_r, !transmit_app, ?app_nil_r. reflexivity.
Qed.

Lemma setText_one_line_not_ascii self text :
  wired self -> len text <= 16 -> is_ascii text = false ->
  setText text self =
  (Raise (ValueError msg_not_ascii),
   set_CURSORPOS self 0,
   transmit self (clear_instructions self)).
Proof.
  intros W L A. unfold setText.
  destruct (Z.leb_spec (len text) 32); [| lia].
  destruct (Z.leb_spec (len text) 16); [| lia].
  run_first clear_run.
  rewrite (_textToBinary_not_ascii text A).
  erewrite bind_Raise by reflexivity.
  cbn [outcome after sent fst snd]. rewrite app_nil_r. reflexivity.
Qed.

Lemma setText_two_lines self text :
  wired self -> 16 < len text <= 32 -> is_ascii text = true ->
  setText text self =
  (Ok tt,
   set_CURSORPOS self (len text + 24),
   transmit self
     (clear_instructions self ++ characters (encode (slice_to 16 text)) ++
      nulls ++ characters (encode (slice_from 16 text)))).
Proof.
  intros W L A. unfold setText.
  destruct (Z.leb_spec (len text) 32); [| lia].
  destruct (Z.leb_spec (len text) 16); [lia |].
  pose proof (is_ascii_slice_to 16 text A) as A1.
  pose proof (is_ascii_slice_from 16 text A) as A2.
  run_first clear_run.
  rewrite (_textToBinary_ascii _ A1). run_get.
  erewrite bind_Ok;
    [| apply send_chars_run; [exact W | apply encode_patterns; exact A1]].
  erewrite bind_Ok; [| apply send_nulls_run; exact W].
  rewrite (_textToBinary_ascii _ A2). run_get.
  rewrite send_chars_run; [| exact W | apply encode_patterns; exact A2].
  cbn [_CURSORPOS set_CURSORPOS outcome after sent fst snd].
  rewrite !encode_length, slice_to_length, slice_from_length.
  rewrite ?app_nil_r, ?app_nil_l, !transmit_app.
  unfold len in *.
  replace (0 + Z.of_nat (Nat.min 16 (String.length text)) + 24 +
           Z.of_nat (String.length text - 16))
    with (Z.of_nat (String.length text) + 24) by lia.
  reflexivity.
Qed.

Lemma setText_first_row_not_ascii self text :
  wired self -> 16 < len text <= 32 -> is_ascii (slice_to 16 text) = false ->
  setText text self =
  (Raise (ValueError msg_not_ascii),
   set_CURSORPOS self 0,
   transmit self (clear_instructions self)).
Proof.
  intros W L A. unfold setText.
  destruct (Z.leb_spec (len text) 32); [| lia].
  destruct (Z.leb_spec (len text) 16); [lia |].
  run_first clear_run.
  rewrite (_textToBinary_not_ascii _ A).
  erewrite bind_Raise by reflexivity.
  cbn [outcome after sent fst snd]. rewrite app_nil_r. reflexivity.
Qed.

Lemma setText_second_row_not_ascii self text :
  wired self -> 16 < len text <= 32 ->
  is_ascii (slice_to 16 text) = true ->
  is_ascii (slice_from 16 text) = false ->
  setText text self =
  (Raise (ValueError msg_not_ascii),
   set_CURSORPOS self 40,
   transmit self
     (clear_instructions self ++ characters (encode (slice_to 16 text)) ++
      nulls)).
Proof.
  intros W L A1 A2. unfold setText.
  destruct (Z.leb_spec (len text) 32); [| lia].
  destruct (Z.leb_spec (len text) 16); [lia |].
  run_first clear_run.
  rewrite (_textToBinary_ascii _ A1). run_get.
  erewrite bind_Ok;
    [| apply send_chars_run; [exact W | apply encode_patterns; exact A1]].
  erewrite bind_Ok; [| apply send_nulls_run; exact W].
  rewrite (_textToBinary_not_ascii _ A2).
  erewrite bind_Raise by reflexivity.
  cbn [_CURSORPOS set_CURSORPOS outcome after sent fst snd].
  rewrite encode_length, slice_to_length.
  rewrite ?app_nil_r, !transmit_app.
  unfold len in *.
  replace (0 + Z.of_nat (Nat.min 16 (String.length text)) + 24)
    with 40 by lia.
  reflexivity.
Qed.

(** ** [append] *)

(** Case analysis on every integer test of the goal. *)
Ltac split_tests :=
  repeat match goal with
         | |- context [?a =? ?b] => destruct (Z.eqb_spec a b)
         | |- context [?a <=? ?b] => destruct (Z.leb_spec a b)
         | |- context [?a <? ?b] => destruct (Z.ltb_spec a b)
         | |- context [?a >=? ?b] => rewrite (Z.geb_leb a b)
         end;
  cbn [andb orb negb].

Lemma append_end_closed bytes : forall p,
  append_end p bytes =
  let n := Z.of_nat (List.length bytes) in
  if (p <=? 16) && (16 <? p + n) then p + n + 24 else p + n.
Proof.
  induction bytes as [| b bs IH]; intros p; cbn [append_end List.length].
  - cbn zeta. split_tests; lia.
  - rewrite IH. cbn zeta. rewrite Nat2Z.inj_succ. split_tests; lia.
Qed.

Lemma append_empty self : append EmptyString self = (Ok tt, self, []).
Proof. reflexivity. Qed.

Lemma append_rejected self text :
  text <> EmptyString -> append_fits self text = false ->
  append text self = (Raise (ValueError msg_too_long), self, []).
Proof.
  intros N F. unfold append.
  destruct (String.eqb_spec text EmptyString) as [E | _]; [contradiction |].
  cbn [negb]. unfold bind, get. rewrite F. reflexivity.
Qed.

Lemma append_not_ascii self text :
  append_fits self text = true -> is_ascii text = false ->
  append text self = (Raise (ValueError msg_not_ascii), self, []).
Proof.
  intros F A. unfold append.
  destruct (String.eqb_spec text EmptyString) as [-> | _];
    [discriminate F |].
  cbn [negb]. unfold bind, get. rewrite F.
  rewrite (_textToBinary_not_ascii _ A). reflexivity.
Qed.

Lemma append_step_run self byte :
  wired self -> is_pattern byte = true ->
  append_step byte self =
  (Ok tt,
   set_CURSORPOS self ((if _CURSORPOS self =? 16 then 40 else _CURSORPOS self) + 1),
   transmit self
     ((if _CURSORPOS self =? 16 then nulls else []) ++ [character byte])).
Proof.
  intros W P. unfold append_step. run_get.
  destruct (Z.eqb_spec (_CURSORPOS self) 16) as [E | N].
  - erewrite bind_Ok; [| apply send_nulls_run; exact W].
    run_get. cbn [_CURSORPOS set_CURSORPOS]. rewrite E.
    change (negb (16 + 24 =? 16)) with true. cbv iota.
    rewrite send_char_run by assumption.
    cbn [_CURSORPOS set_CURSORPOS outcome after sent fst snd].
    rewrite ?app_nil_l, transmit_app. reflexivity.
  - erewrite bind_Ok; [| reflexivity]. run_get.
    destruct (Z.eqb_spec (_CURSORPOS self) 16) as [| _]; [contradiction |].
    cbn [negb]. rewrite send_char_run by assumption.
    cbn [outcome after sent fst snd]. reflexivity.
Qed.

Lemma append_loop_run bytes : forall self,
  wired self -> Forall (fun b => is_pattern b = true) bytes ->
  for_each bytes append_step self =
  (Ok tt,
   set_CURSORPOS self (append_end (_CURSORPOS self) bytes),
   transmit self (append_plan (_CURSORPOS self) bytes)).
Proof.
  induction bytes as [| b bytes IH]; intros self W F.
  - cbn. rewrite set_CURSORPOS_same. reflexivity.
  - inversion F as [| ? ? Pb F']; subst.
    cbn [for_each]. rewrite (bind_Ok _ _ _ _ _ _ (append_step_run self b W Pb)).
    rewrite IH by assumption.
    cbn [outcome after sent fst snd _CURSORPOS set_CURSORPOS
         append_end append_plan].
    match goal with
    | |- context [character b :: ?plan] =>
        change (character b :: plan) with ([character b] ++ plan)
    end.
    rewrite !transmit_app, <- app_assoc. reflexivity.
Qed.

Lemma append_run self text :
  wired self -> append_fits self text = true -> is_ascii text = true ->
  append text self =
  (Ok tt,
   set_CURSORPOS self (append_end (_CURSORPOS self) (encode text)),
   transmit self (append_plan (_CURSORPOS self) (encode text))).
Proof.
  intros W F A. unfold append.
  destruct (String.eqb_spec text EmptyString) as [-> | _];
    [discriminate F |].
  cbn [negb]. run_get. rewrite F.
  rewrite (_textToBinary_ascii _ A). run_get.
  rewrite append_loop_run; [| exact W | apply encode_patterns; exact A].
  reflexivity.
Qed.

Lemma append_fits_iff self text :
  append_fits self text = true <->
  text <> EmptyString /\
  ((_CURSORPOS self <= 16 /\ _CURSORPOS self + 24 + len text <= 56) \/
   (_CURSORPOS self >= 39 /\ _CURSORPOS self + len text <= 56)).
Proof.
  unfold append_fits.
  rewrite andb_true_iff, orb_true_iff, !andb_true_iff, !Z.leb_le, Z.geb_le,
    negb_true_iff, String.eqb_neq.
  intuition lia.
Qed.

(** ** The mode setters and the constructor *)

Lemma setDisplay_run self v :
  wired self ->
  setDisplay v self =
  (Ok tt, set_display self v,
   transmit self [instruction (display_control (set_display self v))]).
Proof.
  intros W. unfold setDisplay, bind, get, put.
  rewrite _updateDisplay_run by exact W. reflexivity.
Qed.

Lemma setCursor_run self v :
  wired self ->
  setCursor v self =
  (Ok tt, set_cursor self v,
   transmit self [instruction (display_control (set_cursor self v))]).
Proof.
  intros W. unfold setCursor, bind, get, put.
  rewrite _updateDisplay_run by exact W. reflexivity.
Qed.

Lemma setBlink_run self v :
  wired self ->
  setBlink v self =
  (Ok tt, set_blink self v,
   transmit self [instruction (display_control (set_blink self v))]).
Proof.
  intros W. unfold setBlink, bind, get, put.
  rewrite _updateDisplay_run by exact W. reflexivity.
Qed.

Lemma setup_pins_run pins : forall self,
  for_each pins (fun pin =>
    emit (GPIO_setup_OUT pin) ;; emit (GPIO_output pin (LBool false))) self =
  (Ok tt, self,
   flat_map (fun pin => [GPIO_setup_OUT pin; GPIO_output pin (LBool false)])
     pins).
Proof.
  induction pins as [| pin pins IH]; intros self; [reflexivity |].
  cbn [for_each]. unfold bind at 1. unfold bind at 1. unfold emit at 1 2.
  rewrite IH. reflexivity.
Qed.

Lemma __init___run RS E pins :
  List.length pins = 8%nat ->
  let self := Lcd RS E pins true false false 0 in
  __init__ RS E pins =
  (Ok tt, self,
   [GPIO_setmode_BCM; GPIO_setwarnings false;
    GPIO_setup_OUT RS; GPIO_output RS (LBool false);
    GPIO_setup_OUT E; GPIO_output E (LBool false)] ++
   flat_map (fun pin => [GPIO_setup_OUT pin; GPIO_output pin (LBool false)])
     pins ++
   transmit self (clear_instructions self)).
Proof.
  intros L self. unfold __init__. rewrite L. cbn [Nat.eqb].
  fold self.
  do 3 (erewrite bind_Ok; [| reflexivity]).
  erewrite bind_Ok; [| apply setup_pins_run].
  rewrite clear_run by exact L.
  reflexivity.
Qed.

Lemma __init___rejects RS E pins :
  List.length pins <> 8%nat ->
  outcome (__init__ RS E pins) = Raise (ValueError msg_pins_len8).
Proof.
  intros L. unfold __init__.
  destruct (Nat.eqb_spec (List.length pins) 8); [contradiction | reflexivity].
Qed.

(** ** The invariant of the public surface *)

Lemma len_nonneg text : 0 <= len text.
Proof. unfold len. lia. Qed.

Lemma setText_sound self text :
  sound self -> sound (after (setText text self)).
Proof.
  intros [W C]. unfold sound, cursor_ok in *.
  pose proof (len_nonneg text) as L0.
  destruct (Z.leb_spec (len text) 32) as [L32 | L32];
    [| rewrite setText_too_long by lia; cbn [after fst snd]; auto].
  destruct (Z.leb_spec (len text) 16) as [L16 | L16].
  - destruct (is_ascii text) eqn:A.
    + rewrite setText_one_line by assumption.
      cbn [after fst snd _CURSORPOS set_CURSORPOS]. split; [exact W |].
      destruct (Z.eqb_spec (len text) 15); lia.
    + rewrite setText_one_line_not_ascii by assumption.
      cbn [after fst snd _CURSORPOS set_CURSORPOS]. split; [exact W | lia].
  - destruct (is_ascii (slice_to 16 text)) eqn:A1.
    + destruct (is_ascii (slice_from 16 text)) eqn:A2.
      * rewrite setText_two_lines;
          [| exact W | lia | rewrite (is_ascii_slices 16), A1, A2; reflexivity].
        cbn [after fst snd _CURSORPOS set_CURSORPOS]. split; [exact W | lia].
      * rewrite setText_second_row_not_ascii by (assumption || lia).
        cbn [after fst snd _CURSORPOS set_CURSORPOS]. split; [exact W | lia].
    + rewrite setText_first_row_not_ascii by (assumption || lia).
      cbn [after fst snd _CURSORPOS set_CURSORPOS]. split; [exact W | lia].
Qed.

Lemma append_sound self text :
  sound self -> sound (after (append text self)).
Proof.
  intros [W C]. unfold sound, cursor_ok in *.
  destruct (String.eqb_spec text EmptyString) as [-> | N];
    [rewrite append_empty; cbn [after fst snd]; auto |].
  destruct (append_fits self text) eqn:F;
    [| rewrite append_rejected by assumption; cbn [after fst snd]; auto].
  destruct (is_ascii text) eqn:A;
    [| rewrite append_not_ascii by assumption; cbn [after fst snd]; auto].
  rewrite append_run by assumption.
  cbn [after fst snd _CURSORPOS set_CURSORPOS]. split; [exact W |].
  apply append_fits_iff in F. destruct F as [_ F].
  rewrite append_end_closed, encode_length. fold (len text). cbn zeta.
  pose proof (len_nonneg text).
  assert (len text <> 0).
  { unfold len. destruct text; [contradiction | cbn; lia]. }
  split_tests; lia.
Qed.

Lemma perform_sound self c : sound self -> sound (after (perform c self)).
Proof.
  intros S. pose proof S as [W C].
  destruct c; cbn [perform];
    unfold displayOn, displayOff, cursorOn, cursorOff, blinkOn, blinkOff;
    try (apply setText_sound; exact S);
    try (apply append_sound; exact S);
    first [ rewrite clear_run by exact W
          | rewrite setDisplay_run by exact W
          | rewrite setCursor_run by exact W
          | rewrite setBlink_run by exact W ];
    cbn [after fst snd]; split; try exact W;
    unfold cursor_ok; cbn [_CURSORPOS set_CURSORPOS set_display set_cursor
                           set_blink]; try exact C; lia.
Qed.

Lemma __init___sound RS E pins :
  outcome (__init__ RS E pins) = Ok tt -> sound (after (__init__ RS E pins)).
Proof.
  intros H.
  destruct (Nat.eq_dec (List.length pins) 8) as [L | L].
  - rewrite (__init___run RS E pins L). cbn [after fst snd].
    split; [exact L | unfold cursor_ok; cbn; lia].
  - rewrite (__init___rejects RS E pins L) in H. discriminate H.
Qed.

Lemma reachable_sound self : reachable self -> sound self.
Proof.
  induction 1 as [RS E pins H | self c R IH].
  - apply __init___sound. exact H.
  - apply perform_sound. exact IH.
Qed.

Lemma encode_slice_to n text :
  encode (slice_to n text) = firstn n (encode text).
Proof.
  unfold encode. revert text.
  induction n as [| n IH]; intros [| c s]; cbn; try reflexivity.
  rewrite IH. reflexivity.
Qed.

Lemma encode_slice_from n text :
  encode (slice_from n text) = skipn n (encode text).
Proof.
  unfold encode. revert text.
  induction n as [| n IH]; intros [| c s]; cbn; try reflexivity.
  apply IH.
Qed.

(** * The claims *)

(** ** C1: [setText] with one row of text

    C1 says that a text of exactly 16 characters is followed by 24 null
    bytes, the cursor ending at 40, and that a text of 1 to 15 characters is
    not padded.  The test of the source is [_CURSORPOS == 15], taken after
    the characters were sent: it holds for 15 characters, not for 16.  On
    the bench device, the 16 characters [ABCDEFGHIJKLMNOP] are sent without
    padding and leave the cursor at 16, and the 15 characters
    [ABCDEFGHIJKLMNO] are followed by the 24 null bytes and leave it at
    39. *)
Theorem setText_sixteen_characters_unpadded :
  setText "ABCDEFGHIJKLMNOP" bench =
    (Ok tt, set_CURSORPOS bench 16,
     transmit bench
       (clear_instructions bench ++ characters (encode "ABCDEFGHIJKLMNOP")))
  /\
  setText "ABCDEFGHIJKLMNO" bench =
    (Ok tt, set_CURSORPOS bench 39,
     transmit bench
       (clear_instructions bench ++ characters (encode "ABCDEFGHIJKLMNO") ++
        nulls)).
Proof.
  split.
  - rewrite setText_one_line by (reflexivity || (cbn; lia)).
    cbn [len String.length Z.of_nat]. rewrite app_nil_r. reflexivity.
  - rewrite setText_one_line by (reflexivity || (cbn; lia)). reflexivity.
Qed.

(** ** C2: [append] of the empty text

    C2 says that [append] of the empty text raises.  The guard
    [if text != ""] of the source has no [else]: the call returns without
    raising.  Counterexample on the bench device. *)
Lemma append_empty_text_does_not_raise :
  outcome (append EmptyString bench) = Ok tt /\
  ~ (exists e, outcome (append EmptyString bench) = Raise e).
Proof.
  split; [reflexivity |]. intros [e H]. discriminate H.
Qed.

(** C2, as amended: for every object, [append] of the empty text returns
    normally, sends nothing and leaves the object (cursor position and mode
    flags) as it was. *)
Theorem append_empty_text_returns self :
  append EmptyString self = (Ok tt, self, []).
Proof. apply append_empty. Qed.

(** ** C3: one pass of the loop of [append]

    C3 says that the boundary skip and the character write exclude each
    other within one pass, the character waiting for the next pass.  The
    two tests of the source are two separate [if]s: after the skip the
    cursor is at 40, the second test holds, and the character is sent in
    the same pass.  Counterexample: the one byte of [A] appended at
    position 16. *)
Lemma append_step_at_boundary_sends_both :
  encode "A" = ["01000001"] /\
  append_step "01000001" (set_CURSORPOS bench 16) =
    (Ok tt, set_CURSORPOS bench 41,
     transmit bench (nulls ++ [character "01000001"])) /\
  append "A" (set_CURSORPOS bench 16) =
    (Ok tt, set_CURSORPOS bench 41,
     transmit bench (nulls ++ [character "01000001"])).
Proof. repeat split; reflexivity. Qed.

(** C3, as amended: every pass of the loop sends its character in that same
    pass; when the cursor is at exactly 16 at the start of the pass the 24
    null bytes are sent first (moving the cursor to 40) and the character
    follows them, otherwise the character is sent alone; the cursor then
    advances by one. *)
Theorem append_step_sends_its_character self byte :
  wired self -> is_pattern byte = true ->
  append_step byte self =
  (Ok tt,
   set_CURSORPOS self
     ((if _CURSORPOS self =? 16 then 40 else _CURSORPOS self) + 1),
   transmit self
     ((if _CURSORPOS self =? 16 then nulls else []) ++ [character byte])).
Proof. apply append_step_run. Qed.

Lemma append_step_sends_its_character_witness :
  wired (set_CURSORPOS bench 16) /\ is_pattern "01000001" = true /\
  append_step "01000001" (set_CURSORPOS bench 16) =
  (Ok tt, set_CURSORPOS (set_CURSORPOS bench 16) 41,
   transmit (set_CURSORPOS bench 16) (nulls ++ [character "01000001"])).
Proof.
  split; [reflexivity |]. split; [reflexivity |].
  apply (append_step_sends_its_character (set_CURSORPOS bench 16) "01000001");
    reflexivity.
Defined.

(** ** C4: what a failed text operation leaves behind

    C4 says that a text operation that raises has sent nothing and changed
    nothing, and that [setText] with a non-ASCII text of at most 32
    characters fails before any transmission.  [setText] calls [clear]
    before it encodes the text: the five instructions of [clear] are sent
    and the cursor is reset before the encoder raises.  Counterexample: a
    one-character text with code point 233, with the cursor at 7. *)
Lemma setText_not_ascii_fails_after_clear :
  let text := String (ascii_of_nat 233) EmptyString in
  let self := set_CURSORPOS bench 7 in
  len text <= 32 /\ is_ascii text = false /\
  outcome (setText text self) = Raise (ValueError msg_not_ascii) /\
  sent (setText text self) = transmit self (clear_instructions self) /\
  sent (setText text self) <> [] /\
  _CURSORPOS self = 7 /\ _CURSORPOS (after (setText text self)) = 0.
Proof.
  cbv zeta. repeat split; try reflexivity; try (cbn; lia).
  intros H. discriminate H.
Qed.

(** C4, as amended: when [append] raises, nothing was sent and the object
    is unchanged; when [setText] raises, either the text is longer than 32
    characters, nothing was sent and the object is unchanged, or the text
    has at most 32 characters and is not ASCII, and the exception comes
    after the five instructions of [clear] were sent and the cursor was
    reset to 0 - and, when the text is longer than 16 characters and its
    first 16 are ASCII, after those 16 characters and the 24 null bytes
    were sent too, the cursor standing at 40.  The mode flags are unchanged
    in every case. *)
Theorem failed_text_operation self text e :
  wired self ->
  (outcome (append text self) = Raise e ->
   after (append text self) = self /\ sent (append text self) = [])
  /\
  (outcome (setText text self) = Raise e ->
   (32 < len text /\ e = ValueError msg_len32 /\
    after (setText text self) = self /\ sent (setText text self) = [])
   \/
   (len text <= 32 /\ is_ascii text = false /\ e = ValueError msg_not_ascii /\
    let row := (16 <? len text) && is_ascii (slice_to 16 text) in
    after (setText text self) = set_CURSORPOS self (if row then 40 else 0) /\
    sent (setText text self) =
    transmit self
      (clear_instructions self ++
       (if row then characters (encode (slice_to 16 text)) ++ nulls
        else [])))).
Proof.
  intros W. split.
  - destruct (String.eqb_spec text EmptyString) as [-> | N];
      [rewrite append_empty; discriminate |].
    destruct (append_fits self text) eqn:F;
      [| rewrite append_rejected by assumption; auto].
    destruct (is_ascii text) eqn:A;
      [| rewrite append_not_ascii by assumption; auto].
    rewrite append_run by assumption. discriminate.
  - destruct (Z.leb_spec (len text) 32) as [L32 | L32];
      [| rewrite setText_too_long by lia; cbn [outcome after sent fst snd];
         intros [= <-]; left; auto].
    destruct (Z.ltb_spec 16 (len text)) as [L16 | L16]; cbn [andb].
    + destruct (is_ascii (slice_to 16 text)) eqn:A1.
      * destruct (is_ascii (slice_from 16 text)) eqn:A2.
        -- rewrite setText_two_lines;
             [discriminate | exact W | lia
             | rewrite (is_ascii_slices 16), A1, A2; reflexivity].
        -- rewrite setText_second_row_not_ascii by (assumption || lia).
           cbn [outcome after sent fst snd]. intros [= <-]. right.
           rewrite (is_ascii_slices 16), A1, A2. auto.
      * rewrite setText_first_row_not_ascii by (assumption || lia).
        cbn [outcome after sent fst snd]. intros [= <-]. right.
        rewrite (is_ascii_slices 16), A1, app_nil_r. auto.
    + destruct (is_ascii text) eqn:A.
      * rewrite setText_one_line by assumption. discriminate.
      * rewrite setText_one_line_not_ascii by assumption.
        cbn [outcome after sent fst snd]. intros [= <-]. right.
        rewrite app_nil_r. auto.
Qed.

Lemma failed_text_operation_witness :
  let text := String (ascii_of_nat 233) EmptyString in
  let self := set_CURSORPOS bench 7 in
  wired self /\
  outcome (setText text self) = Raise (ValueError msg_not_ascii) /\
  after (setText text self) = set_CURSORPOS self 0 /\
  sent (setText text self) = transmit self (clear_instructions self ++ []).
Proof.
  cbv zeta. split; [reflexivity |]. split; [reflexivity |].
  destruct (proj2 (failed_text_operation (set_CURSORPOS bench 7)
                     (String (ascii_of_nat 233) EmptyString)
                     (ValueError msg_not_ascii) eq_refl) eq_refl)
    as [(L & _) | (_ & _ & _ & H)].
  - exfalso. revert L. cbn. lia.
  - exact H.
Defined.

(** ** C5: [clear]

    C5: every call of [clear] sets the cursor position to 0 and sends
    exactly five bytes with register select low, in this order:
    [00000001], [00111000], the display-control byte [00001DCB] of the
    current flags, [00000110], [00000010]. *)
Theorem clear_sends_five_instructions self :
  wired self ->
  clear self =
  (Ok tt, set_CURSORPOS self 0,
   transmit self
     [("00000001", false); ("00111000", false);
      (display_control self, false);
      ("00000110", false); ("00000010", false)])
  /\ _CURSORPOS (after (clear self)) = 0.
Proof.
  intros W. rewrite clear_run by exact W. split; reflexivity.
Qed.

Lemma clear_sends_five_instructions_witness :
  wired bench /\
  clear (set_CURSORPOS bench 41) =
  (Ok tt, bench,
   transmit bench
     [("00000001", false); ("00111000", false); ("00001100", false);
      ("00000110", false); ("00000010", false)]).
Proof.
  split; [reflexivity |].
  apply (proj1 (clear_sends_five_instructions (set_CURSORPOS bench 41)
                  eq_refl)).
Defined.

(** ** C6: the capacity rule of [append]

    C6: for every non-empty text, [append] goes on to the text exactly when
    (a) the cursor is at most 16 and cursor + 24 + length is at most 56, or
    (b) the cursor is at least 39 and cursor + length is at most 56: it then
    does not raise the capacity error, and returns when the text is ASCII;
    otherwise it raises the capacity error, having sent nothing and changed
    nothing.  Four ASCII characters at position 50 are accepted, thirty
    characters at position 10 are refused. *)
Theorem append_capacity self text :
  wired self -> text <> EmptyString ->
  let p := _CURSORPOS self in
  let n := len text in
  let fits := (p <= 16 /\ p + 24 + n <= 56) \/ (p >= 39 /\ p + n <= 56) in
  (fits ->
   outcome (append text self) <> Raise (ValueError msg_too_long) /\
   (is_ascii text = true -> outcome (append text self) = Ok tt))
  /\
  (~ fits ->
   append text self = (Raise (ValueError msg_too_long), self, []))
  /\
  (p = 50 -> n = 4 -> is_ascii text = true ->
   outcome (append text self) = Ok tt /\
   _CURSORPOS (after (append text self)) = 54)
  /\
  (p = 10 -> n = 30 ->
   outcome (append text self) = Raise (ValueError msg_too_long)).
Proof.
  intros W N p n fits.
  assert (Hfits : fits -> append_fits self text = true).
  { intros F. apply append_fits_iff. split; [exact N | exact F]. }
  assert (Hnot : ~ fits -> append_fits self text = false).
  { intros F. destruct (append_fits self text) eqn:E; [| reflexivity].
    apply append_fits_iff in E. destruct E as [_ E]. contradiction. }
  split; [| split; [| split]].
  - intros F. apply Hfits in F. split.
    + destruct (is_ascii text) eqn:A.
      * rewrite append_run by assumption. discriminate.
      * rewrite append_not_ascii by assumption. discriminate.
    + intros A. rewrite append_run by assumption. reflexivity.
  - intros F. apply append_rejected; auto.
  - intros Hp Hn A.
    assert (F : append_fits self text = true)
      by (apply Hfits; unfold fits; lia).
    rewrite append_run by assumption.
    split; [reflexivity |].
    cbn [after fst snd _CURSORPOS set_CURSORPOS].
    rewrite append_end_closed, encode_length. fold (len text). fold n. fold p.
    cbn zeta. split_tests; lia.
  - intros Hp Hn. rewrite append_rejected; [reflexivity | exact N |].
    apply Hnot. unfold fits. lia.
Qed.

Lemma append_capacity_witness :
  wired (set_CURSORPOS bench 50) /\ "ABCD" <> EmptyString /\
  outcome (append "ABCD" (set_CURSORPOS bench 50)) = Ok tt /\
  _CURSORPOS (after (append "ABCD" (set_CURSORPOS bench 50))) = 54.
Proof.
  assert (N : "ABCD" <> EmptyString) by discriminate.
  split; [reflexivity |]. split; [exact N |].
  apply (proj1 (proj2 (proj2
           (append_capacity (set_CURSORPOS bench 50) "ABCD" eq_refl N))));
    reflexivity.
Defined.

(** ** C7: [setText] with two rows of text

    C7: for every ASCII text of 17 to 32 characters, [setText] sends the
    five instructions of [clear], then the first 16 encoded characters,
    then 24 null bytes, then the remaining length - 16 characters, in that
    order, and leaves the cursor at length + 24: at 42 for 18 characters. *)
Theorem setText_two_rows self text :
  wired self -> is_ascii text = true -> 17 <= len text <= 32 ->
  setText text self =
  (Ok tt, set_CURSORPOS self (len text + 24),
   transmit self
     (clear_instructions self ++ characters (firstn 16 (encode text)) ++
      nulls ++ characters (skipn 16 (encode text))))
  /\ List.length (firstn 16 (encode text)) = 16%nat
  /\ Z.of_nat (List.length (skipn 16 (encode text))) = len text - 16
  /\ (len text = 18 -> _CURSORPOS (after (setText text self)) = 42).
Proof.
  intros W A L.
  rewrite setText_two_lines by (assumption || lia).
  rewrite encode_slice_to, encode_slice_from.
  rewrite length_firstn, length_skipn, encode_length.
  unfold len in *. cbn [after fst snd _CURSORPOS set_CURSORPOS].
  repeat split; lia.
Qed.

Lemma setText_two_rows_witness :
  wired bench /\ is_ascii "ABCDEFGHIJKLMNOPQR" = true /\
  17 <= len "ABCDEFGHIJKLMNOPQR" <= 32 /\
  setText "ABCDEFGHIJKLMNOPQR" bench =
  (Ok tt, set_CURSORPOS bench 42,
   transmit bench
     (clear_instructions bench ++
      characters (encode "ABCDEFGHIJKLMNOP") ++ nulls ++
      characters (encode "QR"))).
Proof.
  assert (L : 17 <= len "ABCDEFGHIJKLMNOPQR" <= 32) by (cbn; lia).
  split; [reflexivity |]. split; [reflexivity |]. split; [exact L |].
  apply (proj1 (setText_two_rows bench "ABCDEFGHIJKLMNOPQR" eq_refl eq_refl L)).
Defined.

(** ** C8: what [_sendBinary] refuses

    C8 says that [_sendBinary] raises, before any line is written, for
    every pattern that is not exactly eight characters long or is not made
    of the digits [0] and [1] only.  The source tests the length alone.
    On the bench device the nine-character pattern [000000001] is refused
    with nothing written; the eight-character pattern [00000002] is sent in
    full without an exception, the value 2 going to data line 0; and
    [0000000x] raises only when [int] meets the [x], after the control
    lines and seven data lines were written. *)
Theorem _sendBinary_checks_length_only :
  _sendBinary "000000001" false bench =
    (Raise (ValueError msg_first_len8), bench, [])
  /\
  (is_pattern "00000002" = false /\
   outcome (_sendBinary "00000002" false bench) = Ok tt /\
   In (GPIO_output 5 (LInt 2)) (sent (_sendBinary "00000002" false bench)) /\
   List.length (sent (_sendBinary "00000002" false bench)) = 21%nat)
  /\
  (is_pattern "0000000x" = false /\
   outcome (_sendBinary "0000000x" false bench) =
     Raise (ValueError "invalid literal for int() with base 10") /\
   List.length (sent (_sendBinary "0000000x" false bench)) = 17%nat).
Proof.
  split; [reflexivity |]. split.
  - split; [reflexivity |]. split; [reflexivity |]. split; [| reflexivity].
    cbn. repeat first [left; reflexivity | right].
  - repeat split; reflexivity.
Qed.

(** ** C9: the pulse sequence of one byte

    C9: every transmission of an 8-bit pattern returns and produces exactly
    this sequence: the register-select line is set to [isData]; the enable
    line is raised; a delay; for each [n] from 0 to 7, the [n]-th bit of
    the pattern, counted from the most significant end, is written to
    data line [7 - n], with a delay after each write; the enable line is
    lowered; one more delay.  All eight data-line writes come before the
    enable line is lowered. *)
Theorem _sendBinary_pulse_sequence self b isData :
  wired self -> is_pattern b = true ->
  _sendBinary b isData self =
  (Ok tt, self,
   [GPIO_output (_RS self) (LBool isData);
    GPIO_output (_E self) (LBool true);
    time_sleep _DELAY]
   ++ flat_map (fun n =>
        [GPIO_output (nth (7 - n) (_pins self) 0) (LInt (bit b n));
         time_sleep _DELAY]) [0; 1; 2; 3; 4; 5; 6; 7]%nat
   ++ [GPIO_output (_E self) (LBool false);
       time_sleep _DELAY]).
Proof. intros W P. apply _sendBinary_pattern; assumption. Qed.

Lemma _sendBinary_pulse_sequence_witness :
  wired bench /\ is_pattern "00111000" = true /\
  _sendBinary "00111000" false bench =
  (Ok tt, bench,
   [GPIO_output 20 (LBool false); GPIO_output 21 (LBool true);
    time_sleep _DELAY;
    GPIO_output 25 (LInt 0); time_sleep _DELAY;
    GPIO_output 12 (LInt 0); time_sleep _DELAY;
    GPIO_output 16 (LInt 1); time_sleep _DELAY;
    GPIO_output 26 (LInt 1); time_sleep _DELAY;
    GPIO_output 19 (LInt 1); time_sleep _DELAY;
    GPIO_output 13 (LInt 0); time_sleep _DELAY;
    GPIO_output 6 (LInt 0); time_sleep _DELAY;
    GPIO_output 5 (LInt 0); time_sleep _DELAY;
    GPIO_output 21 (LBool false); time_sleep _DELAY]).
Proof.
  split; [reflexivity |]. split; [reflexivity |].
  apply (_sendBinary_pulse_sequence bench "00111000" false);
    reflexivity.
Defined.

(** ** C10: where the cursor can rest

    C10: on every object a program can hold - returned by a successful
    construction and then used through any sequence of the public
    operations - the cursor position lies in 0..16 or in 39..56, and so it
    does after one more public operation, whatever that operation is. *)
Theorem cursor_stays_in_range self :
  reachable self ->
  (0 <= _CURSORPOS self <= 16 \/ 39 <= _CURSORPOS self <= 56) /\
  forall c,
    0 <= _CURSORPOS (after (perform c self)) <= 16 \/
    39 <= _CURSORPOS (after (perform c self)) <= 56.
Proof.
  intros R. split.
  - apply (reachable_sound self R).
  - intros c. apply (reachable_sound _ (reach_call self c R)).
Qed.

Lemma cursor_stays_in_range_witness :
  let pins := [5; 6; 13; 19; 26; 16; 12; 25] in
  let built := after (__init__ 20 21 pins) in
  let self := after (perform (SetText "ABCDEFGHIJKLMNO") built) in
  reachable self /\ _CURSORPOS self = 39 /\
  (0 <= _CURSORPOS self <= 16 \/ 39 <= _CURSORPOS self <= 56).
Proof.
  cbv zeta.
  assert (R : reachable
                (after (perform (SetText "ABCDEFGHIJKLMNO")
                          (after (__init__ 20 21
                                    [5; 6; 13; 19; 26; 16; 12; 25]))))).
  { apply reach_call. apply reach_init. reflexivity. }
  split; [exact R |]. split; [reflexivity |].
  apply (proj1 (cursor_stays_in_range _ R)).
Defined.

(** * Further properties of the driver *)

(** ** The encoder *)

Lemma char_to_byte_value c :
  (ord c <? 128) = true -> pattern_value (char_to_byte c) = ord c.
Proof.
  destruct c as [b0 b1 b2 b3 b4 b5 b6 b7].
  destruct b7; [destruct b0, b1, b2, b3, b4, b5, b6; discriminate |].
  intros _. destruct b0, b1, b2, b3, b4, b5, b6; reflexivity.
Qed.

Lemma _textToBinary_Ok_ascii text bytes :
  _textToBinary text = Ok bytes -> is_ascii text = true /\ bytes = encode text.
Proof.
  unfold _textToBinary, is_ascii, encode.
  destruct (forallb _ _); [intros [= <-]; auto | discriminate].
Qed.

(** X1: when [_textToBinary] returns, it returns one pattern per character,
    in order, and each pattern, read as a binary number with the most
    significant bit first, is the code point of its character: the text can
    be read back from the patterns. *)
Theorem _textToBinary_round_trip text bytes :
  _textToBinary text = Ok bytes ->
  map pattern_value bytes = map ord (list_ascii_of_string text) /\
  Forall (fun b => is_pattern b = true) bytes.
Proof.
  intros H. apply _textToBinary_Ok_ascii in H. destruct H as [A ->].
  split; [| apply encode_patterns; exact A].
  unfold is_ascii in A. unfold encode. rewrite map_map.
  apply map_ext_in. intros c Hc. apply char_to_byte_value.
  rewrite forallb_forall in A. apply A. exact Hc.
Qed.

Lemma _textToBinary_round_trip_witness :
  _textToBinary "Hi!" = Ok ["01001000"; "01101001"; "00100001"] /\
  map pattern_value ["01001000"; "01101001"; "00100001"] = [72; 105; 33].
Proof.
  split; [reflexivity |].
  apply (proj1 (_textToBinary_round_trip "Hi!"
                  ["01001000"; "01101001"; "00100001"] eq_refl)).
Defined.

(** X2: [_textToBinary] raises its [ValueError] exactly when some character
    of the text has a code point of 128 or more, and then returns no
    pattern at all; otherwise it returns as many patterns as the text has
    characters. *)
Theorem _textToBinary_fails_iff text :
  (_textToBinary text = Raise (ValueError msg_not_ascii) <->
   exists c, In c (list_ascii_of_string text) /\ 128 <= ord c)
  /\
  ((exists bytes, _textToBinary text = Ok bytes /\
                  List.length bytes = String.length text) <->
   forall c, In c (list_ascii_of_string text) -> ord c < 128).
Proof.
  unfold _textToBinary.
  destruct (forallb (fun c => ord c <? 128) (list_ascii_of_string text)) eqn:F.
  - rewrite forallb_forall in F. split; split.
    + discriminate.
    + intros (c & Hc & Hge). apply F in Hc. apply Z.ltb_lt in Hc. lia.
    + intros _ c Hc. apply Z.ltb_lt. auto.
    + intros _. eexists. split; [reflexivity |].
      rewrite length_map. apply length_list_ascii.
  - assert (E : exists c, In c (list_ascii_of_string text) /\ 128 <= ord c).
    { clear -F. induction (list_ascii_of_string text) as [| c l IH];
        [discriminate F |].
      cbn in F. apply andb_false_iff in F. destruct F as [F | F].
      - exists c. split; [left; reflexivity | apply Z.ltb_ge; exact F].
      - destruct (IH F) as (c' & Hc' & Hge). exists c'. split; [right |]; auto. }
    split; split.
    + intros _. exact E.
    + reflexivity.
    + intros (bytes & H & _). discriminate H.
    + intros H. destruct E as (c & Hc & Hge). apply H in Hc. lia.
Qed.

(** ** The byte transmitter *)

(** X3: on any object, whatever its wiring, a pattern whose length is not 8
    makes [_sendBinary] raise before any line is touched. *)
Theorem _sendBinary_rejects_wrong_length self b isData :
  String.length b <> 8%nat ->
  _sendBinary b isData self = (Raise (ValueError msg_first_len8), self, []).
Proof. apply _sendBinary_length. Qed.

Lemma _sendBinary_rejects_wrong_length_witness :
  String.length "0011100" <> 8%nat /\
  _sendBinary "0011100" true bench =
  (Raise (ValueError msg_first_len8), bench, []).
Proof.
  assert (L : String.length "0011100" <> 8%nat) by discriminate.
  split; [exact L |].
  apply (_sendBinary_rejects_wrong_length bench "0011100" true L).
Defined.

Lemma bind_after {A B} (m : M A) (k : A -> M B) self :
  after (m self) = self -> (forall a, after (k a self) = self) ->
  after (bind m k self) = self.
Proof.
  intros Hm Hk. unfold bind. destruct (m self) as [[r s1] t1].
  cbn in Hm. subst s1. destruct r as [a | e]; [| reflexivity].
  specialize (Hk a). destruct (k a self) as [[r2 s2] t2]. exact Hk.
Qed.

Lemma for_each_after {X} (body : X -> M unit) xs self :
  (forall x, after (body x self) = self) ->
  after (for_each xs body self) = self.
Proof.
  intros H. induction xs as [| x xs IH]; [reflexivity |].
  cbn [for_each]. apply bind_after; [apply H | intros _; exact IH].
Qed.

(** X4: [_sendBinary] never changes the object it is called on - not the
    cursor position, not a mode flag, not the wiring - whatever the pattern
    and the wiring are and whether it returns or raises. *)
Theorem _sendBinary_keeps_object self b isData :
  after (_sendBinary b isData self) = self.
Proof.
  unfold _sendBinary. destruct (len b =? 8); [| reflexivity].
  apply bind_after; [reflexivity | intros s].
  repeat (apply bind_after; [reflexivity | intros _]).
  apply bind_after; [| intros _].
  - apply for_each_after. intros n.
    repeat (apply bind_after; [reflexivity | intros ?]). reflexivity.
  - apply bind_after; [reflexivity | intros _]. reflexivity.
Qed.

(** ** The mode setters *)

(** X5: each of [setDisplay], [setCursor] and [setBlink] stores its
    argument in its own flag, leaves the two other flags, the cursor
    position and the wiring alone, and sends exactly one instruction: the
    display-control byte [00001DCB] of the flags as they are after the
    update. *)
Theorem mode_setters_send_one_instruction self v :
  wired self ->
  setDisplay v self =
    (Ok tt,
     Lcd (_RS self) (_E self) (_pins self)
         v (_cursor self) (_blink self) (_CURSORPOS self),
     pulse self
       (String "0" (String "0" (String "0" (String "0" (String "1"
          (String (bit_char v)
            (String (bit_char (_cursor self))
              (String (bit_char (_blink self)) EmptyString))))))))
       false)
  /\
  setCursor v self =
    (Ok tt,
     Lcd (_RS self) (_E self) (_pins self)
         (_display self) v (_blink self) (_CURSORPOS self),
     pulse self
       (String "0" (String "0" (String "0" (String "0" (String "1"
          (String (bit_char (_display self))
            (String (bit_char v)
              (String (bit_char (_blink self)) EmptyString))))))))
       false)
  /\
  setBlink v self =
    (Ok tt,
     Lcd (_RS self) (_E self) (_pins self)
         (_display self) (_cursor self) v (_CURSORPOS self),
     pulse self
       (String "0" (String "0" (String "0" (String "0" (String "1"
          (String (bit_char (_display self))
            (String (bit_char (_cursor self))
              (String (bit_char v) EmptyString))))))))
       false).
Proof.
  intros W.
  rewrite setDisplay_run, setCursor_run, setBlink_run by exact W.
  cbn [transmit flat_map instruction fst snd]. rewrite !app_nil_r.
  repeat split.
Qed.

Lemma mode_setters_send_one_instruction_witness :
  wired bench /\
  setCursor true bench =
  (Ok tt, Lcd 20 21 [5; 6; 13; 19; 26; 16; 12; 25] true true false 0,
   pulse bench "00001110" false).
Proof.
  split; [reflexivity |].
  apply (proj1 (proj2 (mode_setters_send_one_instruction bench true eq_refl))).
Defined.

(** X6: the mode setters compose as assignments.  Setting a flag twice to
    the same value leaves the object as setting it once does (the
    instruction is sent twice), and two different setters leave the same
    object in either order. *)
Theorem mode_setters_compose self a b :
  wired self ->
  after ((setDisplay a ;; setDisplay a) self) = after (setDisplay a self) /\
  after ((setCursor a ;; setCursor a) self) = after (setCursor a self) /\
  after ((setBlink a ;; setBlink a) self) = after (setBlink a self) /\
  sent ((setDisplay a ;; setDisplay a) self) =
    sent (setDisplay a self) ++ sent (setDisplay a self) /\
  after ((setDisplay a ;; setCursor b) self) =
    after ((setCursor b ;; setDisplay a) self) /\
  after ((setDisplay a ;; setBlink b) self) =
    after ((setBlink b ;; setDisplay a) self) /\
  after ((setCursor a ;; setBlink b) self) =
    after ((setBlink b ;; setCursor a) self).
Proof.
  intros W.
  assert (Wd : forall v, wired (set_display self v)) by (intros; exact W).
  assert (Wc : forall v, wired (set_cursor self v)) by (intros; exact W).
  assert (Wb : forall v, wired (set_blink self v)) by (intros; exact W).
  unfold bind.
  repeat (first [ rewrite setDisplay_run by auto
                | rewrite setCursor_run by auto
                | rewrite setBlink_run by auto ];
          cbv beta iota).
  repeat split.
Qed.

Lemma mode_setters_compose_witness :
  wired bench /\
  after ((setDisplay false ;; setCursor true) bench) =
  after ((setCursor true ;; setDisplay false) bench).
Proof.
  split; [reflexivity |].
  apply (proj1 (proj2 (proj2 (proj2 (proj2
           (mode_setters_compose bench false true eq_refl)))))).
Defined.

(** ** The constructor *)

(** X7: with eight data pins [__init__] returns an object with the display
    on, cursor and blink off and the cursor position 0, after exactly these
    backend calls, in order: [setmode(BCM)], [setwarnings(False)], then for
    RS, for E and for each data pin in list order a [setup] as output
    followed by a write of [False], then the five instructions of [clear],
    the display-control byte being [00001100]. *)
Theorem __init___builds RS E pins :
  List.length pins = 8%nat ->
  __init__ RS E pins =
  (Ok tt, Lcd RS E pins true false false 0,
   [GPIO_setmode_BCM; GPIO_setwarnings false;
    GPIO_setup_OUT RS; GPIO_output RS (LBool false);
    GPIO_setup_OUT E; GPIO_output E (LBool false)] ++
   flat_map (fun pin => [GPIO_setup_OUT pin; GPIO_output pin (LBool false)])
     pins ++
   transmit (Lcd RS E pins true false false 0)
     [("00000001", false); ("00111000", false); ("00001100", false);
      ("00000110", false); ("00000010", false)]).
Proof. intros L. apply (__init___run RS E pins L). Qed.

Lemma __init___builds_witness :
  List.length [5; 6; 13; 19; 26; 16; 12; 25] = 8%nat /\
  outcome (__init__ 20 21 [5; 6; 13; 19; 26; 16; 12; 25]) = Ok tt /\
  after (__init__ 20 21 [5; 6; 13; 19; 26; 16; 12; 25]) = bench.
Proof.
  split; [reflexivity |].
  rewrite (__init___builds 20 21 [5; 6; 13; 19; 26; 16; 12; 25] eq_refl).
  split; reflexivity.
Defined.

(** X8: with any other number of data pins [__init__] raises its
    [ValueError] before a single backend call: no pin is set up, no mode is
    set. *)
Theorem __init___rejects_wrong_pin_count RS E pins :
  List.length pins <> 8%nat ->
  outcome (__init__ RS E pins) = Raise (ValueError msg_pins_len8) /\
  sent (__init__ RS E pins) = [].
Proof.
  intros L. unfold __init__.
  destruct (Nat.eqb_spec (List.length pins) 8); [contradiction |].
  split; reflexivity.
Qed.

Lemma __init___rejects_wrong_pin_count_witness :
  List.length [5; 6; 13; 19] <> 8%nat /\
  outcome (__init__ 20 21 [5; 6; 13; 19]) = Raise (ValueError msg_pins_len8) /\
  sent (__init__ 20 21 [5; 6; 13; 19]) = [].
Proof.
  assert (L : List.length [5; 6; 13; 19] <> 8%nat) by discriminate.
  split; [exact L |].
  apply (__init___rejects_wrong_pin_count 20 21 [5; 6; 13; 19] L).
Defined.

(** ** [setText] *)

(** X9: for every ASCII text of at most 16 characters [setText] sends the
    five instructions of [clear] and then the encoded characters; the 24
    null bytes follow exactly when the text has 15 characters, and the
    cursor ends at 39 in that case and at the length of the text in every
    other. *)
Theorem setText_one_row self text :
  wired self -> len text <= 16 -> is_ascii text = true ->
  setText text self =
  (Ok tt,
   set_CURSORPOS self (if len text =? 15 then 39 else len text),
   transmit self
     (clear_instructions self ++ characters (encode text) ++
      (if len text =? 15 then nulls else []))).
Proof. apply setText_one_line. Qed.

Lemma setText_one_row_witness :
  wired bench /\ len "HELLO" <= 16 /\ is_ascii "HELLO" = true /\
  setText "HELLO" (set_CURSORPOS bench 44) =
  (Ok tt, set_CURSORPOS bench 5,
   transmit bench (clear_instructions bench ++ characters (encode "HELLO"))).
Proof.
  assert (L : len "HELLO" <= 16) by (cbn; lia).
  split; [reflexivity |]. split; [exact L |]. split; [reflexivity |].
  rewrite (setText_one_row (set_CURSORPOS bench 44) "HELLO" eq_refl L eq_refl).
  reflexivity.
Defined.

(** X10: a text of more than 32 characters makes [setText] raise at once,
    on any object: nothing is sent, not even the [clear], and the object is
    unchanged. *)
Theorem setText_rejects_long_text self text :
  32 < len text ->
  setText text self = (Raise (ValueError msg_len32), self, []).
Proof. apply setText_too_long. Qed.

Lemma setText_rejects_long_text_witness :
  32 < len "ABCDEFGHIJKLMNOPQRSTUVWXYZ0123456" /\
  setText "ABCDEFGHIJKLMNOPQRSTUVWXYZ0123456" bench =
  (Raise (ValueError msg_len32), bench, []).
Proof.
  assert (L : 32 < len "ABCDEFGHIJKLMNOPQRSTUVWXYZ0123456") by (cbn; lia).
  split; [exact L |].
  apply (setText_rejects_long_text bench _ L).
Defined.

(** X11: [setText] of the empty text is [clear]: same outcome, same
    object, same backend calls. *)
Theorem setText_empty_is_clear self :
  wired self -> setText EmptyString self = clear self.
Proof.
  intros W. rewrite setText_one_line by (exact W || reflexivity || (cbn; lia)).
  rewrite clear_run by exact W.
  cbn [len String.length Z.of_nat Z.eqb encode list_ascii_of_string map
       characters app].
  rewrite app_nil_r. reflexivity.
Qed.

Lemma setText_empty_is_clear_witness :
  wired bench /\
  setText EmptyString (set_CURSORPOS bench 44) = clear (set_CURSORPOS bench 44).
Proof.
  split; [reflexivity |].
  apply (setText_empty_is_clear (set_CURSORPOS bench 44) eq_refl).
Defined.

Lemma clear_forgets_cursor self p q :
  clear (set_CURSORPOS self p) = clear (set_CURSORPOS self q).
Proof. reflexivity. Qed.

(** X12: for a text of at most 32 characters, what [setText] does - its
    outcome, the backend calls and the object it leaves - does not depend
    on where the cursor was before the call, on any object and for any
    text, ASCII or not. *)
Theorem setText_ignores_cursor self text p q :
  len text <= 32 ->
  setText text (set_CURSORPOS self p) = setText text (set_CURSORPOS self q).
Proof.
  intros L. unfold setText.
  destruct (Z.leb_spec (len text) 32); [| lia].
  destruct (len text <=? 16); unfold bind at 1 3;
    rewrite (clear_forgets_cursor self p q); reflexivity.
Qed.

Lemma setText_ignores_cursor_witness :
  len "HELLO" <= 32 /\
  setText "HELLO" (set_CURSORPOS bench 7) =
  setText "HELLO" (set_CURSORPOS bench 52).
Proof.
  assert (L : len "HELLO" <= 32) by (cbn; lia).
  split; [exact L |].
  apply (setText_ignores_cursor bench "HELLO" 7 52 L).
Defined.

(** ** [append] *)

Lemma append_plan_second_row bytes : forall p,
  16 < p -> append_plan p bytes = characters bytes.
Proof.
  induction bytes as [| b bs IH]; intros p Hp; [reflexivity |].
  cbn [append_plan characters map].
  destruct (Z.eqb_spec p 16); [lia |].
  cbn [app]. rewrite IH by lia. reflexivity.
Qed.

Lemma append_plan_first_row bytes : forall k,
  (k <= 16)%nat ->
  append_plan (Z.of_nat k) bytes =
  characters (firstn (16 - k) bytes) ++
  (if (16 - k <? List.length bytes)%nat
   then nulls ++ characters (skipn (16 - k) bytes) else []).
Proof.
  induction bytes as [| b bs IH]; intros k Hk.
  - rewrite firstn_nil. reflexivity.
  - cbn [append_plan].
    destruct (Z.eqb_spec (Z.of_nat k) 16) as [E | N].
    + replace (16 - k)%nat with 0%nat by lia.
      rewrite append_plan_second_row by lia. reflexivity.
    + replace (16 - k)%nat with (S (16 - S k)) by lia.
      replace (Z.of_nat k + 1) with (Z.of_nat (S k)) by lia.
      rewrite IH by lia. reflexivity.
Qed.

Lemma append_first_row_run self text :
  wired self -> is_ascii text = true -> text <> EmptyString ->
  0 <= _CURSORPOS self <= 16 -> _CURSORPOS self + 24 + len text <= 56 ->
  let p := _CURSORPOS self in
  let k := Z.to_nat (16 - p) in
  append text self =
  (Ok tt,
   set_CURSORPOS self
     (if 16 <? p + len text then p + len text + 24 else p + len text),
   transmit self
     (characters (firstn k (encode text)) ++
      (if 16 <? p + len text
       then nulls ++ characters (skipn k (encode text)) else []))).
Proof.
  intros W A N P F p k.
  rewrite append_run;
    [| exact W | apply append_fits_iff; split; [exact N | lia] | exact A].
  rewrite append_end_closed, encode_length. fold (len text). fold p.
  cbn zeta.
  replace p with (Z.of_nat (Z.to_nat p)) at 5 by (unfold p; lia).
  rewrite append_plan_first_row by (unfold p; lia).
  replace (16 - Z.to_nat p)%nat with k by (unfold k, p; lia).
  rewrite encode_length.
  destruct (Z.leb_spec p 16); [| unfold p in *; lia]. cbn [andb].
  destruct (Z.ltb_spec 16 (p + len text)), (Nat.ltb_spec k (String.length text));
    try reflexivity; unfold k, p, len in *; lia.
Qed.

(** X13: on the first row (cursor between 0 and 16), [append] of a
    non-empty ASCII text that fits sends the characters that still fit
    before position 16, then - only if some characters are left - the 24
    null bytes and the remaining characters.  The cursor ends at cursor +
    length when the text stays on the first row and at cursor + length + 24
    when it goes on to the second. *)
Theorem append_on_first_row self text :
  wired self -> is_ascii text = true -> text <> EmptyString ->
  0 <= _CURSORPOS self <= 16 -> _CURSORPOS self + 24 + len text <= 56 ->
  let p := _CURSORPOS self in
  let k := Z.to_nat (16 - p) in
  append text self =
  (Ok tt,
   set_CURSORPOS self
     (if 16 <? p + len text then p + len text + 24 else p + len text),
   transmit self
     (characters (firstn k (encode text)) ++
      (if 16 <? p + len text
       then nulls ++ characters (skipn k (encode text)) else []))).
Proof. apply append_first_row_run. Qed.

Lemma append_on_first_row_witness :
  wired (set_CURSORPOS bench 14) /\ is_ascii "WORLD" = true /\
  append "WORLD" (set_CURSORPOS bench 14) =
  (Ok tt, set_CURSORPOS bench 43,
   transmit bench
     (characters (encode "WO") ++ nulls ++ characters (encode "RLD"))).
Proof.
  assert (N : "WORLD" <> EmptyString) by discriminate.
  assert (P : 0 <= _CURSORPOS (set_CURSORPOS bench 14) <= 16) by (cbn; lia).
  assert (F : _CURSORPOS (set_CURSORPOS bench 14) + 24 + len "WORLD" <= 56)
    by (cbn; lia).
  split; [reflexivity |]. split; [reflexivity |].
  rewrite (append_on_first_row (set_CURSORPOS bench 14) "WORLD"
             eq_refl eq_refl N P F).
  reflexivity.
Defined.

(** X14: on the second row (cursor at 39 or beyond), [append] of a
    non-empty ASCII text that fits sends the encoded characters and nothing
    else, and advances the cursor by the length of the text. *)
Theorem append_on_second_row self text :
  wired self -> is_ascii text = true -> text <> EmptyString ->
  39 <= _CURSORPOS self -> _CURSORPOS self + len text <= 56 ->
  append text self =
  (Ok tt, set_CURSORPOS self (_CURSORPOS self + len text),
   transmit self (characters (encode text))).
Proof.
  intros W A N P F.
  rewrite append_run;
    [| exact W | apply append_fits_iff; split; [exact N | lia] | exact A].
  rewrite append_end_closed, encode_length, append_plan_second_row by lia.
  fold (len text). cbn zeta.
  destruct (Z.leb_spec (_CURSORPOS self) 16); [lia | reflexivity].
Qed.

Lemma append_on_second_row_witness :
  wired (set_CURSORPOS bench 42) /\ is_ascii "OK" = true /\
  append "OK" (set_CURSORPOS bench 42) =
  (Ok tt, set_CURSORPOS bench 44, transmit bench (characters (encode "OK"))).
Proof.
  assert (N : "OK" <> EmptyString) by discriminate.
  assert (P : 39 <= _CURSORPOS (set_CURSORPOS bench 42)) by (cbn; lia).
  assert (F : _CURSORPOS (set_CURSORPOS bench 42) + len "OK" <= 56)
    by (cbn; lia).
  split; [reflexivity |]. split; [reflexivity |].
  apply (append_on_second_row (set_CURSORPOS bench 42) "OK" eq_refl eq_refl N P F).
Defined.

(** ** Operations in sequence *)

Lemma list_ascii_app s t :
  list_ascii_of_string (String.append s t) =
  list_ascii_of_string s ++ list_ascii_of_string t.
Proof. induction s as [| c s IH]; cbn; [reflexivity | rewrite IH; reflexivity]. Qed.

Lemma encode_app s t : encode (String.append s t) = encode s ++ encode t.
Proof. unfold encode. rewrite list_ascii_app. apply map_app. Qed.

Lemma is_ascii_app s t :
  is_ascii (String.append s t) = is_ascii s && is_ascii t.
Proof. unfold is_ascii. rewrite list_ascii_app. apply forallb_app. Qed.

Lemma len_app s t : len (String.append s t) = len s + len t.
Proof.
  unfold len. rewrite <- !length_list_ascii, list_ascii_app, length_app. lia.
Qed.

Lemma characters_app a b :
  characters (a ++ b) = characters a ++ characters b.
Proof. apply map_app. Qed.

(** X15: writing a text in two steps gives what writing it in one step
    gives.  For ASCII texts [s] (at most 16 characters) and [t] (not
    empty) with at most 32 characters together, [setText(s)] followed by
    [append(t)] has the same outcome, leaves the same object and makes the
    same backend calls as [setText(s + t)] - provided neither [s] nor
    [s + t] has exactly 15 characters, the length at which [setText] pads
    the first row. *)
Theorem setText_then_append self s t :
  wired self -> is_ascii s = true -> is_ascii t = true ->
  t <> EmptyString ->
  len s <= 16 -> len s <> 15 ->
  len s + len t <= 32 -> len s + len t <> 15 ->
  (setText s ;; append t) self = setText (String.append s t) self.
Proof.
  intros W As At N Ls Ls15 Lst Lst15.
  pose proof (len_nonneg s) as Hs. pose proof (len_nonneg t) as Ht.
  assert (Ast : is_ascii (String.append s t) = true)
    by (rewrite is_ascii_app, As, At; reflexivity).
  erewrite bind_Ok; [| apply setText_one_line; assumption].
  destruct (Z.eqb_spec (len s) 15) as [| _]; [contradiction |].
  rewrite append_first_row_run;
    [| exact W | exact At | exact N
     | cbn [_CURSORPOS set_CURSORPOS]; lia
     | cbn [_CURSORPOS set_CURSORPOS]; lia].
  cbn [_CURSORPOS set_CURSORPOS outcome after sent fst snd]. cbv zeta.
  assert (Ek : Z.to_nat (16 - len s) = (16 - List.length (encode s))%nat)
    by (rewrite encode_length; unfold len; lia).
  assert (El : (List.length (encode s) <= 16)%nat)
    by (rewrite encode_length; unfold len in *; lia).
  destruct (Z.ltb_spec 16 (len s + len t)) as [Two | One].
  - rewrite setText_two_lines; [| exact W | rewrite len_app; lia | exact Ast].
    rewrite encode_slice_to, encode_slice_from, encode_app, len_app.
    rewrite firstn_app, skipn_app, Ek.
    rewrite (firstn_all2 (n := 16) (encode s)) by exact El.
    rewrite (skipn_all2 (n := 16) (encode s)) by exact El.
    rewrite (transmit_wiring self (set_CURSORPOS self (len s)))
      by reflexivity.
    rewrite app_nil_l, app_nil_r.
    repeat rewrite ?characters_app, ?transmit_app.
    rewrite <- ?app_assoc. reflexivity.
  - rewrite setText_one_line; [| exact W | rewrite len_app; lia | exact Ast].
    rewrite len_app.
    destruct (Z.eqb_spec (len s + len t) 15) as [| _]; [contradiction |].
    rewrite encode_app, Ek.
    rewrite (firstn_all2 (n := 16 - List.length (encode s)) (encode t))
      by (rewrite !encode_length; unfold len in *; lia).
    rewrite (transmit_wiring self (set_CURSORPOS self (len s)))
      by reflexivity.
    rewrite ?app_nil_r.
    repeat rewrite ?characters_app, ?transmit_app.
    rewrite <- ?app_assoc. reflexivity.
Qed.

Lemma setText_then_append_witness :
  wired bench /\
  (setText "HELLO, WORLD" ;; append " - 16x2 LCD") bench =
  setText "HELLO, WORLD - 16x2 LCD" bench.
Proof.
  assert (N : " - 16x2 LCD" <> EmptyString) by discriminate.
  assert (Ls : len "HELLO, WORLD" <= 16) by (cbn; lia).
  assert (Ls15 : len "HELLO, WORLD" <> 15) by (cbn; lia).
  assert (Lst : len "HELLO, WORLD" + len " - 16x2 LCD" <= 32) by (cbn; lia).
  assert (Lst15 : len "HELLO, WORLD" + len " - 16x2 LCD" <> 15) by (cbn; lia).
  split; [reflexivity |].
  apply (setText_then_append bench "HELLO, WORLD" " - 16x2 LCD"
           eq_refl eq_refl eq_refl N Ls Ls15 Lst Lst15).
Defined.

Lemma same_modes_set_CURSORPOS self p : same_modes self (set_CURSORPOS self p).
Proof. repeat split. Qed.

Lemma same_modes_refl self : same_modes self self.
Proof. repeat split. Qed.

Lemma setText_after self text :
  wired self -> same_modes self (after (setText text self)).
Proof.
  intros W.
  destruct (Z.leb_spec (len text) 32) as [L32 | L32];
    [| rewrite setText_too_long by lia; apply same_modes_refl].
  destruct (Z.leb_spec (len text) 16) as [L16 | L16].
  - destruct (is_ascii text) eqn:A.
    + rewrite setText_one_line by assumption. apply same_modes_set_CURSORPOS.
    + rewrite setText_one_line_not_ascii by assumption.
      apply same_modes_set_CURSORPOS.
  - destruct (is_ascii (slice_to 16 text)) eqn:A1.
    + destruct (is_ascii (slice_from 16 text)) eqn:A2.
      * rewrite setText_two_lines;
          [| exact W | lia | rewrite (is_ascii_slices 16), A1, A2; reflexivity].
        apply same_modes_set_CURSORPOS.
      * rewrite setText_second_row_not_ascii by (assumption || lia).
        apply same_modes_set_CURSORPOS.
    + rewrite setText_first_row_not_ascii by (assumption || lia).
      apply same_modes_set_CURSORPOS.
Qed.

Lemma append_after self text :
  wired self -> same_modes self (after (append text self)).
Proof.
  intros W.
  destruct (String.eqb_spec text EmptyString) as [-> | N];
    [rewrite append_empty; apply same_modes_refl |].
  destruct (append_fits self text) eqn:F;
    [| rewrite append_rejected by assumption; apply same_modes_refl].
  destruct (is_ascii text) eqn:A;
    [| rewrite append_not_ascii by assumption; apply same_modes_refl].
  rewrite append_run by assumption. apply same_modes_set_CURSORPOS.
Qed.

(** X16: [clear], [setText] and [append] change nothing but the cursor
    position: after the call - whether it returned or raised, whatever the
    text - the wiring and the three mode flags are what they were. *)
Theorem text_operations_keep_modes self :
  wired self ->
  same_modes self (after (clear self)) /\
  (forall text, same_modes self (after (setText text self))) /\
  (forall text, same_modes self (after (append text self))).
Proof.
  intros W. split; [| split].
  - rewrite clear_run by exact W. apply same_modes_set_CURSORPOS.
  - intros text. apply setText_after. exact W.
  - intros text. apply append_after. exact W.
Qed.

Lemma text_operations_keep_modes_witness :
  wired (set_cursor bench true) /\
  same_modes (set_cursor bench true)
    (after (setText "HELLO" (set_cursor bench true))).
Proof.
  split; [reflexivity |].
  apply (proj1 (proj2 (text_operations_keep_modes (set_cursor bench true)
                         eq_refl)) "HELLO").
Defined.

(** ** The time a call takes *)

Lemma sleeps_app t u : sleeps (t ++ u) = (sleeps t + sleeps u)%nat.
Proof. unfold sleeps. rewrite filter_app, length_app. reflexivity. Qed.

Lemma line_writes_app t u :
  line_writes (t ++ u) = (line_writes t + line_writes u)%nat.
Proof. unfold line_writes. rewrite filter_app, length_app. reflexivity. Qed.

Lemma transmit_cost self ts :
  sleeps (transmit self ts) = (10 * List.length ts)%nat /\
  line_writes (transmit self ts) = (11 * List.length ts)%nat.
Proof.
  induction ts as [| t ts [IH1 IH2]]; [split; reflexivity |].
  change (transmit self (t :: ts))
    with (pulse self (fst t) (snd t) ++ transmit self ts).
  rewrite sleeps_app, line_writes_app, IH1, IH2.
  cbn [List.length]. split.
  - change (sleeps (pulse self (fst t) (snd t))) with 10%nat. lia.
  - change (line_writes (pulse self (fst t) (snd t))) with 11%nat. lia.
Qed.

(** X17: a [setText] of an ASCII text of [n <= 32] characters is [5 + n]
    byte transmissions, and 24 more when [n] is 15 or more than 16; each
    transmission is eleven line writes and ten delays of [_DELAY], so the
    call sleeps [10 * (5 + n + padding)] times. *)
Theorem setText_cost self text :
  wired self -> is_ascii text = true -> len text <= 32 ->
  let n := String.length text in
  let padding := if (n =? 15)%nat || (16 <? n)%nat then 24%nat else 0%nat in
  sleeps (sent (setText text self)) = (10 * (5 + n + padding))%nat /\
  line_writes (sent (setText text self)) = (11 * (5 + n + padding))%nat.
Proof.
  intros W A L n padding.
  destruct (Z.leb_spec (len text) 16) as [L16 | L16].
  - rewrite setText_one_line by assumption. cbn [sent snd].
    destruct (transmit_cost self
                (clear_instructions self ++ characters (encode text) ++
                 (if len text =? 15 then nulls else []))) as [-> ->].
    rewrite !length_app. unfold characters. rewrite length_map, encode_length.
    fold n. unfold padding.
    destruct (Nat.ltb_spec 16 n); [unfold n, len in *; lia |].
    destruct (Z.eqb_spec (len text) 15), (Nat.eqb_spec n 15);
      cbn [orb List.length clear_instructions];
      unfold nulls; rewrite ?repeat_length; cbn [List.length];
      unfold n, len in *; lia.
  - rewrite setText_two_lines by (assumption || lia). cbn [sent snd].
    destruct (transmit_cost self
                (clear_instructions self ++
                 characters (encode (slice_to 16 text)) ++ nulls ++
                 characters (encode (slice_from 16 text)))) as [-> ->].
    rewrite !length_app. unfold characters.
    rewrite !length_map, !encode_length, slice_to_length, slice_from_length.
    fold n. unfold padding, nulls. rewrite repeat_length.
    destruct (Nat.ltb_spec 16 n); [| unfold n, len in *; lia].
    rewrite orb_true_r. cbn [List.length clear_instructions]. lia.
Qed.

Lemma setText_cost_witness :
  wired bench /\ is_ascii "ABCDEFGHIJKLMNOPQR" = true /\
  sleeps (sent (setText "ABCDEFGHIJKLMNOPQR" bench)) = 470%nat /\
  line_writes (sent (setText "ABCDEFGHIJKLMNOPQR" bench)) = 517%nat.
Proof.
  assert (L : len "ABCDEFGHIJKLMNOPQR" <= 32) by (cbn; lia).
  split; [reflexivity |]. split; [reflexivity |].
  apply (setText_cost bench "ABCDEFGHIJKLMNOPQR" eq_refl eq_refl L).
Defined.

(** ** The exceptions a program can see *)

Lemma setText_outcomes self text :
  wired self ->
  outcome (setText text self) = Ok tt \/
  outcome (setText text self) = Raise (ValueError msg_len32) \/
  outcome (setText text self) = Raise (ValueError msg_not_ascii).
Proof.
  intros W.
  destruct (Z.leb_spec (len text) 32) as [L32 | L32];
    [| rewrite setText_too_long by lia; auto].
  destruct (Z.leb_spec (len text) 16) as [L16 | L16].
  - destruct (is_ascii text) eqn:A.
    + rewrite setText_one_line by assumption. auto.
    + rewrite setText_one_line_not_ascii by assumption. auto.
  - destruct (is_ascii (slice_to 16 text)) eqn:A1.
    + destruct (is_ascii (slice_from 16 text)) eqn:A2.
      * rewrite setText_two_lines;
          [| exact W | lia | rewrite (is_ascii_slices 16), A1, A2; reflexivity].
        auto.
      * rewrite setText_second_row_not_ascii by (assumption || lia). auto.
    + rewrite setText_first_row_not_ascii by (assumption || lia). auto.
Qed.

Lemma append_outcomes self text :
  wired self ->
  outcome (append text self) = Ok tt \/
  outcome (append text self) = Raise (ValueError msg_too_long) \/
  outcome (append text self) = Raise (ValueError msg_not_ascii).
Proof.
  intros W.
  destruct (String.eqb_spec text EmptyString) as [-> | N];
    [rewrite append_empty; auto |].
  destruct (append_fits self text) eqn:F;
    [| rewrite append_rejected by assumption; auto].
  destruct (is_ascii text) eqn:A;
    [| rewrite append_not_ascii by assumption; auto].
  rewrite append_run by assumption. auto.
Qed.

(** X18: on an object a program can hold, [clear] and the mode setters
    always return; [setText] returns or raises one of its two
    [ValueError]s (text longer than 32, text not ASCII); [append] returns
    or raises one of its two (text does not fit, text not ASCII).  In
    particular the length check of [_sendBinary] never fires and no
    [IndexError] escapes a public call. *)
Theorem public_calls_raise_only_text_errors self :
  reachable self ->
  outcome (clear self) = Ok tt /\
  (forall v, outcome (setDisplay v self) = Ok tt /\
             outcome (setCursor v self) = Ok tt /\
             outcome (setBlink v self) = Ok tt) /\
  (forall text,
     outcome (setText text self) = Ok tt \/
     outcome (setText text self) = Raise (ValueError msg_len32) \/
     outcome (setText text self) = Raise (ValueError msg_not_ascii)) /\
  (forall text,
     outcome (append text self) = Ok tt \/
     outcome (append text self) = Raise (ValueError msg_too_long) \/
     outcome (append text self) = Raise (ValueError msg_not_ascii)).
Proof.
  intros R. destruct (reachable_sound self R) as [W _].
  split; [rewrite clear_run by exact W; reflexivity |].
  split; [| split].
  - intros v.
    rewrite setDisplay_run, setCursor_run, setBlink_run by exact W.
    repeat split.
  - intros text. apply setText_outcomes. exact W.
  - intros text. apply append_outcomes. exact W.
Qed.

Lemma public_calls_raise_only_text_errors_witness :
  reachable (after (__init__ 20 21 [5; 6; 13; 19; 26; 16; 12; 25])) /\
  outcome (clear (after (__init__ 20 21 [5; 6; 13; 19; 26; 16; 12; 25]))) =
  Ok tt.
Proof.
  assert (R : reachable (after (__init__ 20 21 [5; 6; 13; 19; 26; 16; 12; 25])))
    by (apply reach_init; reflexivity).
  split; [exact R |].
  apply (proj1 (public_calls_raise_only_text_errors _ R)).
Defined.
